(** * VideoGenius: the media composition pipeline of [app.py]

    A shallow embedding of the [VideoGenerator] class: configuration
    loading, chart animation, title animation, transition compositing and
    media assembly.  Python objects are modelled by the [value] type, raised
    exceptions by [result], and the mutable environment (the file system,
    the canvases drawn, the encoder runs) by [World], threaded through the
    monad [M].  The drawing, font, colour and JSON collaborators are section
    variables: the pipeline is verified for every behaviour they may have. *)

From stdpp Require Import base gmap strings list fin_maps.
From Stdlib Require Import ZArith QArith Qround Qminmax Lia Lqa.

Set Warnings "-register-all".
Set Default Proof Using "Type".
Local Open Scope string_scope.
Local Open Scope Z_scope.

(** ** Python values and exceptions *)

Module Py.

Inductive value : Type :=
| VNone
| VBool (b : bool)
| VInt (z : Z)
| VFloat (q : Q)
| VStr (s : string)
| VTuple (vs : list value)
| VList (vs : list value)
| VDict (kvs : list (string * value)).

Inductive exn : Type :=
| ValueError (msg : string)
| TypeError
| KeyError (key : string)
| OSError (path : string)
| JSONDecodeError
| CvError.

Inductive result (A : Type) : Type :=
| Ok (a : A)
| Raise (e : exn).

Arguments Ok {A} a.
Arguments Raise {A} e.

(** Truthiness of an [Optional[str]] argument: [None] and the empty string
    are false. *)
Definition truthy_path (p : option string) : option string :=
  match p with
  | Some s => if String.eqb s "" then None else Some s
  | None => None
  end.

(** [int] view of a value ([bool] is a subclass of [int]). *)
Definition as_int (v : value) : option Z :=
  match v with
  | VInt z => Some z
  | VBool b => Some (Z.b2z b)
  | _ => None
  end.

(** Numeric view of a value, as a C double argument takes it. *)
Definition as_number (v : value) : option Q :=
  match v with
  | VInt z => Some (inject_Z z)
  | VBool b => Some (inject_Z (Z.b2z b))
  | VFloat q => Some q
  | _ => None
  end.

(** The characters of a string, each as a one-character string. *)
Fixpoint chars (s : string) : list string :=
  match s with
  | EmptyString => []
  | String c s' => String c EmptyString :: chars s'
  end.

(** Iteration over a value: sequences give their items, a string its
    characters, a dict its keys; other values are not iterable. *)
Definition py_iter (v : value) : option (list value) :=
  match v with
  | VTuple vs | VList vs => Some vs
  | VStr s => Some (map VStr (chars s))
  | VDict kvs => Some (map (fun kv => VStr (fst kv)) kvs)
  | _ => None
  end.

(** [a, b = v]: unpacking into exactly two targets. *)
Definition unpack2 (v : value) : result (value * value) :=
  match py_iter v with
  | None => Raise TypeError
  | Some [a; b] => Ok (a, b)
  | Some vs =>
      Raise (ValueError (if (length vs <? 2)%nat
                         then "not enough values to unpack"
                         else "too many values to unpack"))
  end.

(** [v[i]] for [i] in {0, 1}, as [_create_animated_frame] indexes the
    resolution. *)
Definition index (v : value) (i : nat) : result value :=
  match v with
  | VTuple vs | VList vs =>
      match vs !! i with Some x => Ok x | None => Raise (KeyError "index") end
  | VStr s =>
      match chars s !! i with
      | Some c => Ok (VStr c)
      | None => Raise (KeyError "index")
      end
  | VDict kvs => Raise (KeyError "index")
  | _ => Raise TypeError
  end.

(** [s in t] on strings: substring test. *)
Fixpoint contains (t s : string) : bool :=
  String.prefix s t ||
  match t with
  | EmptyString => false
  | String _ t' => contains t' s
  end.

(** [s in v] for a string [s]. *)
Definition str_in (s : string) (v : value) : result bool :=
  match v with
  | VTuple vs | VList vs =>
      Ok (existsb (fun x => match x with VStr t => String.eqb t s | _ => false end) vs)
  | VStr t => Ok (contains t s)
  | VDict kvs => Ok (existsb (fun kv => String.eqb (fst kv) s) kvs)
  | _ => Raise TypeError
  end.

Fixpoint all_str (vs : list value) : option (list string) :=
  match vs with
  | [] => Some []
  | VStr s :: vs' =>
      match all_str vs' with Some ss => Some (s :: ss) | None => None end
  | _ => None
  end.

(** [sep.join(v)]. *)
Definition join (sep : string) (v : value) : result string :=
  match py_iter v with
  | None => Raise TypeError
  | Some vs =>
      match all_str vs with
      | Some ss => Ok (String.concat sep ss)
      | None => Raise TypeError
      end
  end.

(** [s[:k]]: a negative bound counts from the end. *)
Definition slice_to (s : string) (k : Z) : string :=
  let n := Z.of_nat (String.length s) in
  let stop := if k <? 0 then Z.max 0 (n + k) else k in
  String.substring 0 (Z.to_nat (Z.min stop n)) s.

(** [int(x)] on a number: truncation towards zero. *)
Definition int_of_Q (q : Q) : Z := Z.quot (Qnum q) (Zpos (Qden q)).

(** [range(a, b)]. *)
Definition range (a b : Z) : list Z :=
  map (fun i => a + Z.of_nat i) (seq 0 (Z.to_nat (b - a))).

(** [os.path.join(a, b)] for a relative [b]. *)
Definition path_join (a b : string) : string :=
  if String.eqb a "" then b
  else if String.eqb (String.substring (String.length a - 1) 1 a) "/"
       then a ++ b
       else a ++ "/" ++ b.

End Py.
Export Py.

(** ** Rasters, figures and media files *)

(** A pixel holds three 8-bit channels. *)
Definition pixel : Type := Z * Z * Z.

(** A [numpy] array of shape (rows, cols, 3) and dtype [uint8], row-major.
    As a video frame it is [im_cols] wide and [im_rows] high. *)
Record Image := mkImage {
  im_rows : Z;
  im_cols : Z;
  im_data : list pixel
}.

Definition frame_width (img : Image) : Z := im_cols img.
Definition frame_height (img : Image) : Z := im_rows img.
Definition frame_size (img : Image) : Z * Z := (frame_width img, frame_height img).

Definition channel_ok (c : Z) : bool := (0 <=? c) && (c <=? 255).

Definition pixel_ok (p : pixel) : bool :=
  let '(a, b, c) := p in channel_ok a && channel_ok b && channel_ok c.

(** Every channel of the raster is a [uint8]. *)
Definition image_ok (img : Image) : bool := forallb pixel_ok (im_data img).

(** What [_plot_data] draws on the axes. *)
Inductive artist : Type :=
| Plot (xs : list Z) (ys : list Q) (color : string) (lw : Z) (marker : string)
| Bar (xs : list Z) (ys : list Q) (color : string)
| Scatter (xs : list Z) (ys : list Q) (color : string) (s : Z).

(** A matplotlib figure with its single axes. *)
Record Figure := mkFigure {
  fig_size : Z * Z;
  fig_facecolor : value;
  ax_facecolor : value;
  ax_artists : list artist;
  ax_xlim : option (Z * Z);
  ax_ylim : option (Q * Q);
  ax_xlabel : string;
  ax_ylabel : string;
  ax_title : string
}.

(** A video file as [cv2.VideoWriter] leaves it: the declared frame rate
    and frame size, and the frames handed to [write], oldest first. *)
Record VideoFile := mkVideoFile {
  vf_fps : Q;
  vf_size : Z * Z;
  vf_frames : list Image
}.

(** An audio clip: samples at the common rate [AUDIO_FPS]. *)
Definition AudioClip : Type := list Q.


(** A video clip of moviepy. *)
Record VideoClip := mkVideoClip {
  vc_fps : Q;
  vc_size : Z * Z;
  vc_frames : list Image;
  vc_audio : option AudioClip
}.

(** One run of the encoder: [write_videofile(path, codec)]. *)
Record EncodeJob := mkEncodeJob {
  ej_path : string;
  ej_codec : string;
  ej_clip : VideoClip
}.

Inductive file : Type :=
| FText (content : string)
| FVideo (v : VideoFile)
| FAudio (a : AudioClip)
| FMovie (c : VideoClip)
| FDir.

(** The environment the generator acts on: the file system, the figures
    whose canvas was drawn (oldest first) and the encoder runs (oldest
    first). *)
Record World := mkWorld {
  w_fs : gmap string file;
  w_drawn : list Figure;
  w_encoded : list EncodeJob
}.

Definition set_fs (f : gmap string file -> gmap string file) (w : World) : World :=
  {| w_fs := f (w_fs w); w_drawn := w_drawn w; w_encoded := w_encoded w |}.

(** ** The monad of the generator: state and exceptions *)

Definition M (A : Type) : Type := World -> result A * World.

Definition ret {A} (a : A) : M A := fun w => (Ok a, w).

Definition raise {A} (e : exn) : M A := fun w => (Raise e, w).

Definition bind {A B} (m : M A) (k : A -> M B) : M B :=
  fun w =>
    match m w with
    | (Ok a, w') => k a w'
    | (Raise e, w') => (Raise e, w')
    end.

Definition lift {A} (r : result A) : M A := fun w => (r, w).

Definition get_world : M World := fun w => (Ok w, w).

Definition modify (f : World -> World) : M unit := fun w => (Ok tt, f w).

Notation "x <~ m ;; k" := (bind m (fun x => k))
  (at level 100, m at next level, right associativity).
Notation "m ;;; k" := (bind m (fun _ => k))
  (at level 100, right associativity).

Definition rbind {A B} (r : result A) (k : A -> result B) : result B :=
  match r with
  | Ok a => k a
  | Raise e => Raise e
  end.

Notation "x <~? r ;; k" := (rbind r (fun x => k))
  (at level 100, r at next level, right associativity).

(** [for x in xs: body(x)]. *)
Fixpoint for_each {A} (xs : list A) (body : A -> M unit) : M unit :=
  match xs with
  | [] => ret tt
  | x :: xs' => body x ;;; for_each xs' body
  end.

(** ** Configuration *)

Definition default_config : gmap string value :=
  <["resolution" := VTuple [VInt 1280; VInt 720]]>
  (<["fps" := VInt 24]>
  (<["chart_types" := VList [VStr "line"; VStr "bar"; VStr "scatter"]]>
  (<["colors" := VDict [("title_bg", VStr "#2c3e50");
                        ("chart_bg", VStr "#ecf0f1");
                        ("text", VStr "#ffffff")]]>
  (<["voice" := VDict [("rate", VInt 150);
                       ("volume", VFloat 1);
                       ("voice_id", VStr "english")]]> ∅)))).

(** The top-level keys the generator reads. *)
Definition recognized_keys : list string :=
  ["resolution"; "fps"; "chart_types"; "colors"; "voice"].

(** [{**base, **items}]: the items are written over [base] in order, a
    later binding of a key replacing an earlier one. *)
Definition dict_update (base : gmap string value) (items : list (string * value))
  : gmap string value :=
  fold_left (fun m kv => <[fst kv := snd kv]> m) items base.

(** [d[k]] on the items of a dict literal or a decoded JSON object: the
    last binding of [k]. *)
Definition dict_get (items : list (string * value)) (k : string) : option value :=
  fold_left (fun o kv => if String.eqb (fst kv) k then Some (snd kv) else o)
            items None.

(** [self.config[k]]. *)
Definition config_get (cfg : gmap string value) (k : string) : result value :=
  match cfg !! k with
  | Some v => Ok v
  | None => Raise (KeyError k)
  end.

(** [self.config[k][k2]] on a nested dict. *)
Definition config_get2 (cfg : gmap string value) (k k2 : string) : result value :=
  match cfg !! k with
  | Some (VDict kvs) =>
      match dict_get kvs k2 with
      | Some v => Ok v
      | None => Raise (KeyError k2)
      end
  | Some _ => Raise TypeError
  | None => Raise (KeyError k)
  end.

(** The time series handed to [generate_chart_animation]: [data["years"]]
    and [data["values"]]. *)
Record ChartData := mkChartData {
  years : list Z;
  values : list Q
}.

(** ** The speech engine and the entry point *)

(** The properties of the [pyttsx3] engine that the generator sets. *)
Record Engine := mkEngine {
  e_rate : value;
  e_volume : value;
  e_voice : string
}.

(** Truth value of an object in a condition. *)
Definition truthy (v : value) : bool :=
  match v with
  | VNone => false
  | VBool b => b
  | VInt z => negb (z =? 0)
  | VFloat q => negb (Qnum q =? 0)
  | VStr s => negb (String.eqb s "")
  | VTuple vs | VList vs => negb (Nat.eqb (length vs) 0)
  | VDict kvs => negb (Nat.eqb (length kvs) 0)
  end.

(** What the constructor and [main] can meet: an exception as it was
    raised, or the [RuntimeError] that [validate_dependencies] raises in
    place of the exception [cause]. *)
Inductive failure : Type :=
| Exn (e : exn)
| RuntimeError (cause : exn).

(** A [VideoGenerator]: its engine and its configuration. *)
Record Generator := mkGenerator {
  g_engine : Engine;
  g_config : gmap string value
}.

(** The line [main] prints: the success message with the final path, or
    the error message with the exception caught. *)
Inductive outcome : Type :=
| Created (final_path : string)
| Failed (f : failure).

(** [np.cumsum]. *)
Fixpoint cumsum_from (acc : Q) (l : list Q) : list Q :=
  match l with
  | [] => []
  | x :: l' => (acc + x)%Q :: cumsum_from (acc + x)%Q l'
  end.

Definition cumsum (l : list Q) : list Q := cumsum_from 0 l.

(** ** Sample collaborators and inputs *)

Module Sample.

(** A double-quoted JSON string. *)
Definition quoted (s : string) : string :=
  let dq := String (Ascii.ascii_of_nat 34) EmptyString in
  dq ++ s ++ dq.

(** A configuration document that sets every recognized key. *)
Definition config_text : string :=
  "{" ++ quoted "resolution" ++ ": [4, 2], "
      ++ quoted "fps" ++ ": 2, "
      ++ quoted "chart_types" ++ ": [" ++ quoted "bar" ++ "], "
      ++ quoted "colors" ++ ": {" ++ quoted "title_bg" ++ ": " ++ quoted "#000000" ++ ", "
                                  ++ quoted "chart_bg" ++ ": " ++ quoted "#ffffff" ++ "}, "
      ++ quoted "voice" ++ ": {" ++ quoted "rate" ++ ": 160}}".

Definition config_items : list (string * value) :=
  [("resolution", VList [VInt 4; VInt 2]);
   ("fps", VInt 2);
   ("chart_types", VList [VStr "bar"]);
   ("colors", VDict [("title_bg", VStr "#000000"); ("chart_bg", VStr "#ffffff")]);
   ("voice", VDict [("rate", VInt 160)])].

(** A decoder that knows this one document. *)
Definition json_load (s : string) : result value :=
  if String.eqb s config_text then Ok (VDict config_items) else Raise JSONDecodeError.

(** The configuration the document loads to. *)
Definition config : gmap string value := dict_update default_config config_items.

(** A font of one pixel per character on the baseline row. *)
Definition glyph (text : string) (org : Z * Z) (scale : Q) (thickness : Z)
    (row col : Z) : bool :=
  (row =? snd org) && (fst org <=? col)
  && (col <? fst org + Z.of_nat (String.length text)).

(** Nearest-neighbour sampling. *)
Definition interp (img : Image) (dsize : Z * Z) (row col : Z) : pixel :=
  let r := row * im_rows img / snd dsize in
  let c := col * im_cols img / fst dsize in
  nth (Z.to_nat (r * im_cols img + c)) (im_data img) (0, 0, 0).

Definition dpi : positive := 1%positive.

(** A canvas that shades by position and by the number of marks. *)
Definition paint (fig : Figure) (row col : Z) : pixel :=
  (Z.of_nat (length (ax_artists fig)) mod 256, row mod 256, col mod 256).

(** A colour parser that knows strings only. *)
Definition to_rgb (v : value) : result (Q * Q * Q) :=
  match v with
  | VStr _ => Ok (0, 1 # 2, 1)%Q
  | _ => Raise (ValueError "Invalid RGBA argument")
  end.

Definition empty_world : World := mkWorld ∅ [] [].

(** A world holding the configuration document. *)
Definition config_world : World :=
  mkWorld {["config.json" := FText config_text]} [] [].

(** A raster of two rows and three columns. *)
Definition small_image : Image :=
  mkImage 2 3 [(0, 1, 2); (10, 20, 30); (255, 254, 253);
               (100, 0, 255); (7, 7, 7); (128, 64, 32)].

Definition series : ChartData :=
  mkChartData [2000; 2001; 2002] [50; 52 # 1; 105 # 2]%Q.

(** The title of the example run in [main]. *)
Definition main_title : string := "Economic Growth Analysis".

Definition blank : Image := mkImage 0 0 [].

(** The scenario of a ten-second video (72 title frames and 168 chart
    frames at 24 frames per second, of different frame sizes), a ten-second
    voice track and a fifteen-second music track. *)
Definition media_world : World :=
  mkWorld
    (<["out/title_screen.mp4" := FVideo (mkVideoFile 24 (720, 1280) (repeat blank 72))]>
     (<["out/chart_animation.mp4" := FVideo (mkVideoFile 24 (1280, 720) (repeat blank 168))]>
     (<["out/voiceover.mp3" := FAudio (repeat (1 # 2)%Q (Z.to_nat 441000))]>
     (<["background_music.mp3" := FAudio (repeat (1 # 4)%Q (Z.to_nat 661500))]> ∅))))
    [] [].

End Sample.

(** Sample speech collaborators. *)
Module Demo.

Definition engine : Engine := mkEngine (VInt 200) (VFloat 1) "default".

(** Two installed voices. *)
Definition get_voices (e : Engine) : result (list string) := Ok ["default"; "english-us"].

(** One sample per character of the text. *)
Definition synth (text : string) (e : Engine) : result AudioClip :=
  Ok (repeat (1 # 2)%Q (String.length text)).

(** The example configuration written in [main]: the voice entry has no
    volume. *)
Definition main_config_items : list (string * value) :=
  [("resolution", VList [VInt 1920; VInt 1080]);
   ("voice", VDict [("rate", VInt 160); ("voice_id", VStr "english")])].

Definition main_config_text : string :=
  "{" ++ Sample.quoted "resolution" ++ ": [1920, 1080], "
      ++ Sample.quoted "voice" ++ ": {" ++ Sample.quoted "rate" ++ ": 160, "
      ++ Sample.quoted "voice_id" ++ ": " ++ Sample.quoted "english" ++ "}}".

Definition json_load (s : string) : result value :=
  if String.eqb s main_config_text then Ok (VDict main_config_items)
  else Raise JSONDecodeError.

Definition config_world : World :=
  mkWorld {["config.json" := FText main_config_text]} [] [].

(** Twenty-one draws of the random generator. *)
Definition draws : list Q := repeat (2 # 1)%Q 21.

End Demo.

Section Generator.

(** The collaborators of the pipeline. *)

(** [json.load] on the text of a file. *)
Variable json_load : string -> result value.

(** ** _load_config *)

(** [os.path.exists]. *)
Definition path_exists (w : World) (p : string) : bool :=
  match w_fs w !! p with Some _ => true | None => false end.

(** [open(path)] followed by [json.load(f)]. *)
Definition open_json (w : World) (p : string) : result value :=
  match w_fs w !! p with
  | Some (FText s) => json_load s
  | Some FDir | None => Raise (OSError p)
  | Some _ => Raise JSONDecodeError
  end.

Definition _load_config (config_path : option string) : M (gmap string value) :=
  fun w =>
    match truthy_path config_path with
    | Some p =>
        if path_exists w p then
          match open_json w p with
          | Ok (VDict items) => (Ok (dict_update default_config items), w)
          | Ok _ => (Raise TypeError, w)
          | Raise e => (Raise e, w)
          end
        else (Ok default_config, w)
    | None => (Ok default_config, w)
    end.

(** ** numpy and OpenCV *)

(** [np.zeros((rows, cols, 3), dtype=np.uint8)]. *)
Definition np_zeros (rows cols : value) : result Image :=
  match as_int rows, as_int cols with
  | Some r, Some c =>
      if (r <? 0) || (c <? 0)
      then Raise (ValueError "negative dimensions are not allowed")
      else Ok (mkImage r c (repeat (0, 0, 0) (Z.to_nat (r * c))))
  | _, _ => Raise TypeError
  end.

(** [frame[:, :] = colour]: every pixel receives the triple, each component
    cast to [uint8]. *)
Definition fill (img : Image) (c : Z * Z * Z) : Image :=
  let '(c0, c1, c2) := c in
  let px := (c0 mod 256, c1 mod 256, c2 mod 256) in
  mkImage (im_rows img) (im_cols img) (map (fun _ => px) (im_data img)).

(** The font rasteriser of [cv2.putText]: whether the text, drawn at [org]
    with the given scale and thickness, covers the pixel at (row, col). *)
Variable glyph : string -> Z * Z -> Q -> Z -> Z -> Z -> bool.

(** [cv2.putText(img, text, org, FONT_HERSHEY_SIMPLEX, scale, color,
    thickness)]: the covered pixels take the colour. *)
Definition putText (img : Image) (text : string) (org : Z * Z) (scale : Q)
    (color : pixel) (thickness : Z) : Image :=
  mkImage (im_rows img) (im_cols img)
    (imap (fun idx p =>
             let i := Z.of_nat idx in
             if glyph text org scale thickness (i / im_cols img) (i mod im_cols img)
             then color else p)
          (im_data img)).

(** [cv2.cvtColor(img, cv2.COLOR_RGB2BGR)]. *)
Definition cvtColor_RGB2BGR (img : Image) : Image :=
  mkImage (im_rows img) (im_cols img)
    (map (fun p : pixel => let '(r, g, b) := p in (b, g, r)) (im_data img)).

(** The interpolation of [cv2.resize]: the pixel at (row, col) of the
    source resampled to the size (width, height). *)
Variable interp : Image -> Z * Z -> Z -> Z -> pixel.

(** [cv2.resize(img, (width, height))]: the result has [height] rows and
    [width] columns. *)
Definition cv2_resize (img : Image) (dsize : value * value) : result Image :=
  match as_int (fst dsize), as_int (snd dsize) with
  | Some width, Some height =>
      if (width <=? 0) || (height <=? 0) || (im_rows img <=? 0) || (im_cols img <=? 0)
      then Raise CvError
      else Ok (mkImage height width
                 (map (fun idx => let i := Z.of_nat idx in
                                  interp img (width, height) (i / width) (i mod width))
                      (seq 0 (Z.to_nat (height * width)))))
  | _, _ => Raise CvError
  end.

(** [cvRound]: to the nearest integer, ties to even. *)
Definition cvRound (q : Q) : Z :=
  let f := Qfloor q in
  match Qcompare (q - inject_Z f) (1 # 2) with
  | Lt => f
  | Gt => f + 1
  | Eq => if Z.even f then f else f + 1
  end.

(** [saturate_cast<uchar>]. *)
Definition saturate_u8 (z : Z) : Z := Z.max 0 (Z.min 255 z).

Definition weighted (a b g : Q) (x y : Z) : Z :=
  saturate_u8 (cvRound (inject_Z x * a + inject_Z y * b + g)).

(** [cv2.addWeighted(src1, alpha, src2, beta, gamma)]: per channel
    [saturate(src1 * alpha + src2 * beta + gamma)], on arrays of one shape.
    The arithmetic is on exact rationals. *)
Definition addWeighted (src1 : Image) (alpha : Q) (src2 : Image) (beta gamma : Q)
  : result Image :=
  if (im_rows src1 =? im_rows src2) && (im_cols src1 =? im_cols src2)
     && (length (im_data src1) =? length (im_data src2))%nat
  then Ok (mkImage (im_rows src1) (im_cols src1)
             (zip_with (fun p q : pixel =>
                          let '(p0, p1, p2) := p in
                          let '(q0, q1, q2) := q in
                          (weighted alpha beta gamma p0 q0,
                           weighted alpha beta gamma p1 q1,
                           weighted alpha beta gamma p2 q2))
                       (im_data src1) (im_data src2)))
  else Raise CvError.

(** [cv2.VideoWriter(path, fourcc, fps, (width, height))]: the file is
    created with no frame; the handle is its path. *)
Definition VideoWriter_open (path : string) (fps : value) (size : value * value)
  : M string :=
  match as_number fps, as_int (fst size), as_int (snd size) with
  | Some f, Some w, Some h =>
      modify (set_fs (insert path (FVideo (mkVideoFile f (w, h) [])))) ;;;
      ret path
  | _, _, _ => raise CvError
  end.

Definition append_frame (img : Image) (f : file) : file :=
  match f with
  | FVideo v => FVideo (mkVideoFile (vf_fps v) (vf_size v) (vf_frames v ++ [img]))
  | _ => f
  end.

(** [out.write(img)]: the frame is handed to the writer, after the frames
    written before. *)
Definition VideoWriter_write (out : string) (img : Image) : M unit :=
  modify (set_fs (alter (append_frame img) out)).

(** [out.release()]. *)
Definition VideoWriter_release (out : string) : M unit := ret tt.

(** ** _validate_chart_type *)

Definition _validate_chart_type (cfg : gmap string value) (chart_type : string)
  : result unit :=
  valid_types <~? config_get cfg "chart_types" ;;
  found <~? str_in chart_type valid_types ;;
  if negb found then
    names <~? join ", " valid_types ;;
    Raise (ValueError ("Invalid chart type. Choose from: " ++ names))
  else Ok tt.

(** ** _apply_transition *)

(** [min(1.0, frame_num / 10)]. *)
Definition transition_alpha (frame_num : Z) : Q :=
  Qmin 1 (inject_Z frame_num / 10).

Definition _apply_transition (img : Image) (frame_num : Z) : result Image :=
  let alpha := transition_alpha frame_num in
  addWeighted img alpha img (1 - alpha) 0.

(** ** The chart: _create_chart_figure, _plot_data, _figure_to_image *)

(** A figure of 16 by 9 inches whose axes and patch take the chart
    background; the style sheet selected first only affects how the
    collaborator paints. *)
Definition _create_chart_figure (cfg : gmap string value) : result Figure :=
  bg <~? config_get2 cfg "colors" "chart_bg" ;;
  bg' <~? config_get2 cfg "colors" "chart_bg" ;;
  Ok (mkFigure (16, 9) bg' bg [] None None "" "" "").

(** Shapes (a,) and (b,) broadcast when they agree or one of them is 1. *)
Definition broadcast {A B} (xs : list A) (ys : list B) : option (list A * list B) :=
  if (length xs =? length ys)%nat then Some (xs, ys)
  else match xs, ys with
       | [x], _ => Some (repeat x (length ys), ys)
       | _, [y] => Some (xs, repeat y (length xs))
       | _, _ => None
       end.

(** The mark drawn for a chart type; [plot] and [scatter] reject x and y of
    different lengths, [bar] broadcasts them. *)
Definition draw_marks (x : list Z) (y : list Q) (chart_type : string)
  : result (list artist) :=
  if String.eqb chart_type "line" then
    if (length x =? length y)%nat then Ok [Plot x y "#3498db" 3 "o"]
    else Raise (ValueError "x and y must have same first dimension")
  else if String.eqb chart_type "bar" then
    match broadcast x y with
    | Some (x', y') => Ok [Bar x' y' "#2ecc71"]
    | None => Raise (ValueError "shape mismatch")
    end
  else if String.eqb chart_type "scatter" then
    if (length x =? length y)%nat then Ok [Scatter x y "#e74c3c" 100]
    else Raise (ValueError "x and y must be the same size")
  else Ok [].

(** [min] and [max] of an array; an empty one raises. *)
Definition list_min_Z (l : list Z) : result Z :=
  match l with
  | [] => Raise (ValueError "min() arg is an empty sequence")
  | a :: l' => Ok (fold_left Z.min l' a)
  end.

Definition list_max_Z (l : list Z) : result Z :=
  match l with
  | [] => Raise (ValueError "max() arg is an empty sequence")
  | a :: l' => Ok (fold_left Z.max l' a)
  end.

Definition list_min_Q (l : list Q) : result Q :=
  match l with
  | [] => Raise (ValueError "min() arg is an empty sequence")
  | a :: l' => Ok (fold_left Qmin l' a)
  end.

Definition list_max_Q (l : list Q) : result Q :=
  match l with
  | [] => Raise (ValueError "max() arg is an empty sequence")
  | a :: l' => Ok (fold_left Qmax l' a)
  end.

Definition _plot_data (fig : Figure) (x : list Z) (y : list Q) (chart_type : string)
  : result Figure :=
  marks <~? draw_marks x y chart_type ;;
  xmin <~? list_min_Z x ;;
  xmax <~? list_max_Z x ;;
  ymin <~? list_min_Q y ;;
  ymax <~? list_max_Q y ;;
  Ok (mkFigure (fig_size fig) (fig_facecolor fig) (ax_facecolor fig)
        (ax_artists fig ++ marks)
        (Some (xmin - 1, xmax + 1))
        (Some (ymin * (9 # 10), ymax * (11 # 10))%Q)
        "Year" "Value" "Economic Trends").

(** The resolution of the canvas in dots per inch. *)
Variable dpi : positive.

(** The chart-drawing collaborator: the RGB pixel of the drawn canvas at
    (row, col). *)
Variable paint : Figure -> Z -> Z -> pixel.

(** The canvas buffer of a figure of [fig_size] inches, reshaped to (height,
    width, 3) and converted to BGR. *)
Definition figure_raster (fig : Figure) : Image :=
  let w := fst (fig_size fig) * Zpos dpi in
  let h := snd (fig_size fig) * Zpos dpi in
  cvtColor_RGB2BGR
    (mkImage h w
       (map (fun idx => let i := Z.of_nat idx in paint fig (i / w) (i mod w))
            (seq 0 (Z.to_nat (h * w))))).

(** [fig.canvas.draw()]: the figure joins the canvases drawn. *)
Definition canvas_draw (fig : Figure) (world : World) : World :=
  {| w_fs := w_fs world;
     w_drawn := w_drawn world ++ [fig];
     w_encoded := w_encoded world |}.

Definition _figure_to_image (fig : Figure) : M Image :=
  modify (canvas_draw fig) ;;;
  ret (figure_raster fig).

(** ** generate_chart_animation *)

(** The body of the loop for one value of [frame]: the image written. *)
Definition chart_frame (cfg : gmap string value) (x : list Z) (y : list Q)
    (chart_type : string) (size : value * value) (frame : Z) : M Image :=
  fig <~ lift (_create_chart_figure cfg) ;;
  fig <~ lift (_plot_data fig x y chart_type) ;;
  img <~ _figure_to_image fig ;;
  img <~ lift (cv2_resize img size) ;;
  if 1 <? frame then lift (_apply_transition img frame) else ret img.

(** The figure [chart_frame] draws, as a function of the data window
    alone. *)
Definition chart_figure (cfg : gmap string value) (x : list Z) (y : list Q)
    (chart_type : string) : result Figure :=
  fig <~? _create_chart_figure cfg ;;
  _plot_data fig x y chart_type.

(** The image [chart_frame] computes, as a function of the data window
    alone. *)
Definition chart_image (cfg : gmap string value) (x : list Z) (y : list Q)
    (chart_type : string) (size : value * value) (frame : Z) : result Image :=
  fig <~? chart_figure cfg x y chart_type ;;
  img <~? cv2_resize (figure_raster fig) size ;;
  if 1 <? frame then _apply_transition img frame else Ok img.

Definition generate_chart_animation (cfg : gmap string value) (data : ChartData)
    (output_path : string) (chart_type : string) : M string :=
  lift (_validate_chart_type cfg chart_type) ;;;
  res <~ lift (config_get cfg "resolution") ;;
  hw <~ lift (unpack2 res) ;;
  let height := fst hw in
  let width := snd hw in
  fps <~ lift (config_get cfg "fps") ;;
  let animation_path := path_join output_path "chart_animation.mp4" in
  out <~ VideoWriter_open animation_path fps (width, height) ;;
  for_each (range 1 (Z.of_nat (length (years data)) + 1))
    (fun frame =>
       img <~ chart_frame cfg (take (Z.to_nat frame) (years data))
                (take (Z.to_nat frame) (values data)) chart_type (width, height) frame ;;
       VideoWriter_write out img) ;;;
  VideoWriter_release out ;;;
  ret animation_path.

(** ** create_title_screen and _create_animated_frame *)

(** The colour parser [plt.colors.to_rgb]: three components in [0, 1], or
    an exception. *)
Variable to_rgb : value -> result (Q * Q * Q).

(** [int(frame_num / 3)]: the number of title characters requested. *)
Definition text_offset (frame_num : Z) : Z := int_of_Q (inject_Z frame_num / 3).

(** [min(1.0, (frame_num - 15) / 30)]. *)
Definition desc_alpha (frame_num : Z) : Q :=
  Qmin 1 (inject_Z (frame_num - 15) / 30).

(** The part of the title drawn on frame [frame_num]. *)
Definition visible_title (title : string) (frame_num : Z) : string :=
  slice_to title (text_offset frame_num).

Definition _create_animated_frame (cfg : gmap string value) (frame_num : Z)
    (title description : string) : result Image :=
  res1 <~? config_get cfg "resolution" ;;
  rows <~? index res1 1 ;;
  res0 <~? config_get cfg "resolution" ;;
  cols <~? index res0 0 ;;
  frame <~? np_zeros rows cols ;;
  bg <~? config_get2 cfg "colors" "title_bg" ;;
  rgb <~? to_rgb bg ;;
  let '(c0, c1, c2) := rgb in
  let frame := fill frame (int_of_Q (c0 * 255), int_of_Q (c1 * 255), int_of_Q (c2 * 255)) in
  let frame := putText frame (visible_title title frame_num) (100, 200) 2
                 (255, 255, 255) 3 in
  if 15 <? frame_num then
    let alpha := desc_alpha frame_num in
    let c := int_of_Q (255 * alpha) in
    Ok (putText frame description (100, 300) (8 # 10) (c, c, c) 2)
  else Ok frame.

(** [3 * self.config["fps"]] as the argument of [range]. *)
Definition title_frame_count (fps : value) : result Z :=
  match as_int fps with
  | Some n => Ok (3 * n)
  | None => Raise TypeError
  end.

Definition create_title_screen (cfg : gmap string value) (title description : string)
    (output_path : string) : M string :=
  res <~ lift (config_get cfg "resolution") ;;
  hw <~ lift (unpack2 res) ;;
  let height := fst hw in
  let width := snd hw in
  let title_path := path_join output_path "title_screen.mp4" in
  fps <~ lift (config_get cfg "fps") ;;
  out <~ VideoWriter_open title_path fps (width, height) ;;
  fps' <~ lift (config_get cfg "fps") ;;
  n <~ lift (title_frame_count fps') ;;
  for_each (range 0 n)
    (fun i =>
       frame <~ lift (_create_animated_frame cfg i title description) ;;
       VideoWriter_write out frame) ;;;
  VideoWriter_release out ;;;
  ret title_path.

(** ** combine_media *)

(** [VideoFileClip(path)]. *)
Definition VideoFileClip (path : string) : M VideoClip :=
  fun w =>
    match w_fs w !! path with
    | Some (FVideo v) => (Ok (mkVideoClip (vf_fps v) (vf_size v) (vf_frames v) None), w)
    | Some (FMovie c) => (Ok c, w)
    | _ => (Raise (OSError path), w)
    end.

(** [AudioFileClip(path)]. *)
Definition AudioFileClip (path : string) : M AudioClip :=
  fun w =>
    match w_fs w !! path with
    | Some (FAudio a) => (Ok a, w)
    | Some (FMovie (mkVideoClip _ _ _ (Some a))) => (Ok a, w)
    | _ => (Raise (OSError path), w)
    end.

(** [clip.volumex(factor)]. *)
Definition volumex (factor : Q) (a : AudioClip) : AudioClip :=
  map (Qmult factor) a.

(** The sum of two tracks that start together: past the end of the shorter
    one the longer one plays alone. *)
Fixpoint mix2 (a b : AudioClip) : AudioClip :=
  match a, b with
  | [], _ => b
  | _, [] => a
  | x :: a', y :: b' => (x + y)%Q :: mix2 a' b'
  end.

(** [CompositeAudioClip(tracks)]: all tracks start at time zero. *)
Definition CompositeAudioClip (tracks : list AudioClip) : AudioClip :=
  fold_right mix2 [] tracks.

(** The concatenation of a clip with the clips listed, in that order: the
    frames follow one another, the frame size is the largest width and the
    largest height, the frame rate the largest one.  The audio of the
    result is replaced by [set_audio] in [combine_media]. *)
Definition concatenate_videoclips (first : VideoClip) (rest : list VideoClip)
  : VideoClip :=
  let clips := first :: rest in
  mkVideoClip
    (fold_left Qmax (map vc_fps rest) (vc_fps first))
    (fold_left Z.max (map (fun c => fst (vc_size c)) rest) (fst (vc_size first)),
     fold_left Z.max (map (fun c => snd (vc_size c)) rest) (snd (vc_size first)))
    (concat (map vc_frames clips))
    None.

(** [clip.set_audio(audio)]. *)
Definition set_audio (c : VideoClip) (a : AudioClip) : VideoClip :=
  mkVideoClip (vc_fps c) (vc_size c) (vc_frames c) (Some a).

(** [clip.write_videofile(path, codec)]: one run of the encoder. *)
Definition write_videofile (c : VideoClip) (path codec : string) : M unit :=
  modify (fun w => {| w_fs := <[path := FMovie c]> (w_fs w);
                      w_drawn := w_drawn w;
                      w_encoded := w_encoded w ++ [mkEncodeJob path codec c] |}).

(** The gain of the background music. *)
Definition MUSIC_GAIN : Q := 3 # 10.

Definition combine_media (title_path animation_path voiceover_path output_path : string)
    (bg_music : option string) : M string :=
  let final_path := path_join output_path "final_video.mp4" in
  title_clip <~ VideoFileClip title_path ;;
  animation_clip <~ VideoFileClip animation_path ;;
  let final_clip := concatenate_videoclips title_clip [animation_clip] in
  voiceover <~ AudioFileClip voiceover_path ;;
  let audio_tracks := [voiceover] in
  w <~ get_world ;;
  audio_tracks <~
    match truthy_path bg_music with
    | Some p =>
        if path_exists w p then
          music <~ AudioFileClip p ;;
          ret (audio_tracks ++ [volumex MUSIC_GAIN music])%list
        else ret audio_tracks
    | None => ret audio_tracks
    end ;;
  let composite_audio := CompositeAudioClip audio_tracks in
  let final_clip := set_audio final_clip composite_audio in
  write_videofile final_clip final_path "libx264" ;;;
  ret final_path.

(** ** create_voiceover *)

(** [engine.getProperty('voices')]: the ids of the installed voices, or the
    exception of the driver. *)
Variable get_voices : Engine -> result (list string).

(** [engine.save_to_file(text, path)] followed by [engine.runAndWait()]:
    the audio the driver synthesises with the properties of the engine. *)
Variable synth : string -> Engine -> result AudioClip.

Definition set_rate (v : value) (e : Engine) : Engine :=
  mkEngine v (e_volume e) (e_voice e).

Definition set_volume (v : value) (e : Engine) : Engine :=
  mkEngine (e_rate e) v (e_voice e).

Definition set_voice (id : string) (e : Engine) : Engine :=
  mkEngine (e_rate e) (e_volume e) id.

(** The voice selection: when the configured [voice_id] is true and more
    than one voice is installed, the second one. *)
Definition select_voice (voice_id : value) (e : Engine) : result Engine :=
  if truthy voice_id then
    voices <~? get_voices e ;;
    match voices with
    | _ :: second :: _ => Ok (set_voice second e)
    | _ => Ok e
    end
  else Ok e.

(** The engine is mutated in place: its state is returned also when an
    exception is raised. *)
Definition create_voiceover (cfg : gmap string value) (text output_path : string)
    (engine : Engine) (w : World) : result string * Engine * World :=
  let voiceover_path := path_join output_path "voiceover.mp3" in
  match config_get2 cfg "voice" "rate" with
  | Raise e => (Raise e, engine, w)
  | Ok rate =>
      let engine := set_rate rate engine in
      match config_get2 cfg "voice" "volume" with
      | Raise e => (Raise e, engine, w)
      | Ok volume =>
          let engine := set_volume volume engine in
          match config_get2 cfg "voice" "voice_id" with
          | Raise e => (Raise e, engine, w)
          | Ok voice_id =>
              match select_voice voice_id engine with
              | Raise e => (Raise e, engine, w)
              | Ok engine =>
                  match synth text engine with
                  | Raise e => (Raise e, engine, w)
                  | Ok audio =>
                      (Ok voiceover_path, engine,
                       set_fs (insert voiceover_path (FAudio audio)) w)
                  end
              end
          end
      end
  end.

(** ** __init__ and validate_dependencies *)

(** [pyttsx3.init()]. *)
Variable pyttsx3_init : result Engine.

(** The attribute [cv2.__version__] is read and the voices are asked of the
    engine; an exception becomes a [RuntimeError]. *)
Definition validate_dependencies (engine : Engine) : option failure :=
  match get_voices engine with
  | Ok _ => None
  | Raise e => Some (RuntimeError e)
  end.

Definition VideoGenerator_init (config_path : option string) (w : World)
  : (Generator + failure) * World :=
  match pyttsx3_init with
  | Raise e => (inr (Exn e), w)
  | Ok engine =>
      match _load_config config_path w with
      | (Raise e, w') => (inr (Exn e), w')
      | (Ok config, w') =>
          match validate_dependencies engine with
          | Some f => (inr f, w')
          | None => (inl (mkGenerator engine config), w')
          end
      end
  end.

(** ** main *)

(** [os.makedirs(path, exist_ok=True)] for a path of one component. *)
Definition makedirs (path : string) : M unit :=
  fun w =>
    match w_fs w !! path with
    | Some FDir => (Ok tt, w)
    | Some _ => (Raise (OSError path), w)
    | None => (Ok tt, set_fs (insert path FDir) w)
    end.

Definition main_description : string := "2000-2020 GDP Trends".

Definition main_narration : string :=
  "This analysis shows the economic growth patterns from 2000 to 2020. "
  ++ "Notice the consistent upward trend despite global economic challenges.".

(** The example data: the years 2000 to 2020 and, for the 21 [draws] of
    [np.random.uniform], their running sums plus 50. *)
Definition main_data (draws : list Q) : ChartData :=
  mkChartData (range 2000 2021) (map (fun s => s + 50)%Q (cumsum draws)).

(** [main], as a function of the random draws and of the world; the
    configuration it writes down is not handed to the generator. *)
Definition main (draws : list Q) (w : World) : outcome * World :=
  match VideoGenerator_init None w with
  | (inr f, w) => (Failed f, w)
  | (inl generator, w) =>
      let output_dir := "output" in
      let cfg := g_config generator in
      match (makedirs output_dir ;;;
             let data := main_data draws in
             title_path <~ create_title_screen cfg "Economic Growth Analysis"
                             main_description output_dir ;;
             animation_path <~ generate_chart_animation cfg data output_dir "bar" ;;
             ret (title_path, animation_path)) w with
      | (Raise e, w) => (Failed (Exn e), w)
      | (Ok (title_path, animation_path), w) =>
          match create_voiceover cfg main_narration output_dir (g_engine generator) w with
          | (Raise e, _, w) => (Failed (Exn e), w)
          | (Ok voiceover_path, _, w) =>
              match combine_media title_path animation_path voiceover_path output_dir
                      (Some "background_music.mp3") w with
              | (Raise e, w) => (Failed (Exn e), w)
              | (Ok final_path, w) => (Created final_path, w)
              end
          end
      end
  end.


(** ** Views used by the statements *)

(** The resolution entry of the configuration is the pair [(r0, r1)], as a
    tuple (the built-in default) or as a list (a decoded JSON array). *)
Definition has_resolution (cfg : gmap string value) (r0 r1 : Z) : Prop :=
  cfg !! "resolution" = Some (VTuple [VInt r0; VInt r1]) \/
  cfg !! "resolution" = Some (VList [VInt r0; VInt r1]).





(** * Properties *)

(** ** Configuration loading *)

Lemma dict_get_snoc (items : list (string * value)) (k' : string) (v : value) (k : string) :
  dict_get (items ++ [(k', v)]) k =
  if String.eqb k' k then Some v else dict_get items k.
Proof. unfold dict_get. rewrite fold_left_app. reflexivity. Qed.

Lemma dict_update_snoc (base : gmap string value) (items : list (string * value))
    (k' : string) (v : value) :
  dict_update base (items ++ [(k', v)]) = <[k' := v]> (dict_update base items).
Proof. unfold dict_update. rewrite fold_left_app. reflexivity. Qed.

(** A merged dictionary answers with the overlay where the overlay binds
    the key, and with the base elsewhere. *)
Lemma dict_update_lookup (base : gmap string value) (items : list (string * value))
    (k : string) :
  dict_update base items !! k =
  match dict_get items k with
  | Some v => Some v
  | None => base !! k
  end.
Proof.
  induction items as [|[k' v] items IH] using rev_ind.
  - reflexivity.
  - rewrite dict_update_snoc, dict_get_snoc, lookup_insert.
    destruct (String.eqb_spec k' k) as [->|Hne].
    + rewrite decide_True by reflexivity. reflexivity.
    + rewrite decide_False by assumption. exact IH.
Qed.

Lemma default_config_keys (k : string) (v : value) :
  default_config !! k = Some v -> k ∈ recognized_keys.
Proof.
  unfold default_config, recognized_keys.
  repeat (rewrite lookup_insert; case_decide;
          [subst k; intros _; rewrite !elem_of_cons; auto 10 | ]).
  rewrite lookup_empty. discriminate.
Qed.

Lemma truthy_path_Some (p : string) : p <> "" -> truthy_path (Some p) = Some p.
Proof.
  intros Hp. unfold truthy_path.
  destruct (String.eqb_spec p "") as [->|_]; [contradiction | reflexivity].
Qed.

(** C9. A configuration document that gives a value to every recognized
    top-level key loads to a configuration holding exactly the values of the
    document: at each recognized key the loaded value is the document's, and
    no other key is bound, so that no default survives. *)
Theorem load_config_explicit_roundtrip (w : World)
    (path text : string) (items : list (string * value)) :
  path <> "" ->
  w_fs w !! path = Some (FText text) ->
  json_load text = Ok (VDict items) ->
  (forall k, k ∈ recognized_keys -> is_Some (dict_get items k)) ->
  exists cfg,
    _load_config (Some path) w = (Ok cfg, w) /\
    (forall k, k ∈ recognized_keys -> cfg !! k = dict_get items k) /\
    (forall k, cfg !! k = dict_get items k).
Proof.
  intros Hpath Hfile Hjson Hall.
  exists (dict_update default_config items).
  assert (Hlk : forall k, dict_update default_config items !! k = dict_get items k).
  { intros k. rewrite dict_update_lookup.
    destruct (dict_get items k) as [v|] eqn:Hget; [reflexivity|].
    destruct (default_config !! k) as [d|] eqn:Hd; [|reflexivity].
    apply default_config_keys in Hd. apply Hall in Hd.
    rewrite Hget in Hd. destruct Hd as [? Hd]. discriminate. }
  split; [|split; [intros k _; apply Hlk | exact Hlk]].
  unfold _load_config, path_exists, open_json.
  rewrite (truthy_path_Some _ Hpath), Hfile, Hjson. reflexivity.
Qed.

(** C10. When no configuration path is given, or the path names nothing on
    disk, [_load_config] returns the built-in defaults, raises nothing and
    leaves the world as it was. *)
Theorem load_config_absent_is_default (w : World) (config_path : option string) :
  (config_path = None \/ exists p, config_path = Some p /\ w_fs w !! p = None) ->
  _load_config config_path w = (Ok default_config, w).
Proof.
  intros [-> | (p & -> & Hnone)]; [reflexivity|].
  unfold _load_config, truthy_path, path_exists.
  destruct (String.eqb p ""); [reflexivity|].
  rewrite Hnone. reflexivity.
Qed.

(** ** Chart type validation *)

Lemma all_str_map_VStr (kinds : list string) : all_str (map VStr kinds) = Some kinds.
Proof.
  induction kinds as [|k kinds IH]; [reflexivity|].
  simpl. rewrite IH. reflexivity.
Qed.

Lemma existsb_VStr (kinds : list string) (s : string) :
  existsb (fun x => match x with VStr t => String.eqb t s | _ => false end)
          (map VStr kinds) = bool_decide (s ∈ kinds).
Proof.
  induction kinds as [|k kinds IH]; cbn [map existsb].
  - symmetry. apply bool_decide_eq_false_2, not_elem_of_nil.
  - rewrite IH. destruct (String.eqb_spec k s) as [->|Hne]; cbn [orb].
    + symmetry. apply bool_decide_eq_true_2, elem_of_cons. left. reflexivity.
    + apply bool_decide_ext. rewrite elem_of_cons.
      split; [intros H; right; exact H
             | intros [Heq | H]; [destruct (Hne (eq_sym Heq)) | exact H]].
Qed.

Lemma validate_list_of_kinds (cfg : gmap string value) (kinds : list string)
    (chart_type : string) :
  cfg !! "chart_types" = Some (VList (map VStr kinds)) ->
  _validate_chart_type cfg chart_type =
  if bool_decide (chart_type ∈ kinds) then Ok tt
  else Raise (ValueError ("Invalid chart type. Choose from: " ++ String.concat ", " kinds)).
Proof.
  intros Hcfg. unfold _validate_chart_type, config_get. rewrite Hcfg.
  cbn [rbind str_in]. rewrite existsb_VStr.
  destruct (bool_decide (chart_type ∈ kinds)); [reflexivity|].
  cbn [negb]. unfold join. cbn [py_iter]. rewrite all_str_map_VStr. reflexivity.
Qed.

(** C3. With the configured chart kinds a list of names, a chart type
    outside the list makes [generate_chart_animation] raise the
    invalid-chart-type error with the world untouched (no file written, no
    canvas drawn, no encoder run), and a chart type in the list passes the
    validation. *)
Theorem invalid_chart_type_rejected
    (cfg : gmap string value) (kinds : list string) (data : ChartData)
    (output_path chart_type : string) (w : World) :
  cfg !! "chart_types" = Some (VList (map VStr kinds)) ->
  (chart_type ∉ kinds ->
   generate_chart_animation cfg data output_path chart_type w =
   (Raise (ValueError ("Invalid chart type. Choose from: " ++ String.concat ", " kinds)), w))
  /\ (chart_type ∈ kinds -> _validate_chart_type cfg chart_type = Ok tt).
Proof.
  intros Hcfg. split; intros Hin.
  - unfold generate_chart_animation, bind, lift.
    rewrite (validate_list_of_kinds _ _ _ Hcfg), bool_decide_eq_false_2 by assumption.
    reflexivity.
  - rewrite (validate_list_of_kinds _ _ _ Hcfg), bool_decide_eq_true_2 by assumption.
    reflexivity.
Qed.

(** ** The transition *)

Lemma cvRound_Qeq (q : Q) (z : Z) : (q == inject_Z z)%Q -> cvRound q = z.
Proof.
  intros H. unfold cvRound.
  rewrite (Qfloor_comp _ _ H), Qfloor_Z.
  assert (Hz : (q - inject_Z z == 0)%Q) by (rewrite H; ring).
  rewrite (Qcompare_comp _ _ Hz _ _ (Qeq_refl _)). reflexivity.
Qed.

(** Rounding absorbs any error below one half, so the result below does not
    depend on how precisely the weighted sum is evaluated. *)
Lemma cvRound_near (q : Q) (z : Z) :
  (inject_Z z - (1 # 2) < q)%Q -> (q < inject_Z z + (1 # 2))%Q -> cvRound q = z.
Proof.
  intros Hlo Hhi. unfold cvRound.
  pose proof (Qfloor_le q) as Hfl.
  pose proof (Qlt_floor q) as Hfu.
  rewrite inject_Z_plus in Hfu. change (inject_Z 1) with 1%Q in Hfu.
  assert (Hcases : Qfloor q = z \/ Qfloor q = z - 1).
  { assert (H1 : (Qfloor q < z + 1)%Z).
    { rewrite Zlt_Qlt, inject_Z_plus. change (inject_Z 1) with 1%Q.
      generalize dependent (inject_Z (Qfloor q)). generalize dependent (inject_Z z).
      intros; lra. }
    assert (H2 : (z < Qfloor q + 2)%Z).
    { rewrite Zlt_Qlt, inject_Z_plus. change (inject_Z 2) with 2%Q.
      generalize dependent (inject_Z (Qfloor q)). generalize dependent (inject_Z z).
      intros; lra. }
    lia. }
  destruct Hcases as [Hf | Hf]; rewrite Hf in *.
  - assert (Hc : (q - inject_Z z ?= 1 # 2)%Q = Lt).
    { apply -> Qlt_alt. generalize dependent (inject_Z z). intros. lra. }
    rewrite Hc. reflexivity.
  - unfold Z.sub in *. rewrite inject_Z_plus in *.
    change (inject_Z (- (1))) with (- (1))%Q in *.
    assert (Hc : (q - (inject_Z z + - (1)) ?= 1 # 2)%Q = Gt).
    { apply -> Qgt_alt. generalize dependent (inject_Z z). intros; lra. }
    rewrite Hc. lia.
Qed.

Lemma weighted_self (a : Q) (p : Z) :
  channel_ok p = true -> weighted a (1 - a) 0 p p = p.
Proof.
  unfold channel_ok, weighted, saturate_u8. intros Hp.
  apply andb_true_iff in Hp as [H0 H255].
  apply Z.leb_le in H0, H255.
  rewrite (cvRound_Qeq _ p) by ring. lia.
Qed.

Lemma blend_self (a : Q) (l : list pixel) :
  forallb pixel_ok l = true ->
  zip_with (fun p q : pixel =>
              let '(p0, p1, p2) := p in
              let '(q0, q1, q2) := q in
              (weighted a (1 - a) 0 p0 q0,
               weighted a (1 - a) 0 p1 q1,
               weighted a (1 - a) 0 p2 q2)) l l = l.
Proof.
  induction l as [|[[p0 p1] p2] l IH]; [reflexivity|].
  cbn [forallb pixel_ok zip_with]. intros H.
  apply andb_true_iff in H as [Hp Hl].
  apply andb_true_iff in Hp as [Hp H2].
  apply andb_true_iff in Hp as [H0 H1].
  rewrite !weighted_self, IH by assumption. reflexivity.
Qed.

(** C6. [_apply_transition] blends the frame with itself with the weights
    [alpha] and [1 - alpha], where [alpha = min(1, frame_num / 10)]; on every
    raster of 8-bit channels and for every frame index the result is the
    input, pixel for pixel. *)
Theorem transition_is_identity (img : Image) (frame_num : Z) :
  image_ok img = true ->
  _apply_transition img frame_num
  = addWeighted img (Qmin 1 (inject_Z frame_num / 10)) img
      (1 - Qmin 1 (inject_Z frame_num / 10)) 0
  /\ _apply_transition img frame_num = Ok img.
Proof.
  intros Hok. split; [reflexivity|].
  unfold _apply_transition, addWeighted.
  rewrite !Z.eqb_refl, Nat.eqb_refl. cbn [andb].
  unfold image_ok in Hok. rewrite (blend_self _ _ Hok).
  destruct img; reflexivity.
Qed.

(** The weight ramps linearly from 0 at index 0 to 1 at index 10 and stays
    there. *)
Lemma transition_alpha_ramp (k : Z) :
  (0 <= k <= 10 -> (transition_alpha k == inject_Z k / 10)%Q) /\
  (10 <= k -> (transition_alpha k == 1)%Q).
Proof.
  unfold transition_alpha. split; intros H.
  - apply Q.min_r. apply Qle_shift_div_r; [reflexivity|].
    rewrite Qmult_1_l. change 10%Q with (inject_Z 10).
    rewrite <- Zle_Qle. lia.
  - apply Q.min_l. apply Qle_shift_div_l; [reflexivity|].
    rewrite Qmult_1_l. change 10%Q with (inject_Z 10).
    rewrite <- Zle_Qle. lia.
Qed.

(** The transition never fails, whatever the raster. *)
Lemma apply_transition_ok (img : Image) (frame_num : Z) :
  exists img', _apply_transition img frame_num = Ok img' /\
               im_rows img' = im_rows img /\ im_cols img' = im_cols img.
Proof.
  unfold _apply_transition, addWeighted.
  rewrite !Z.eqb_refl, Nat.eqb_refl. cbn [andb].
  eexists. split; [reflexivity|]. split; reflexivity.
Qed.

(** ** The title reveal *)

Lemma text_offset_quot (i : Z) : text_offset i = Z.quot i 3.
Proof. unfold text_offset, int_of_Q. cbn. rewrite Z.mul_1_r. reflexivity. Qed.

Lemma substring_0_length (s : string) (n : nat) :
  String.length (String.substring 0 n s) = Nat.min n (String.length s).
Proof.
  revert n. induction s as [|c s IH]; intros [|n]; cbn; try reflexivity.
  rewrite IH. reflexivity.
Qed.

Lemma substring_0_all (s : string) (n : nat) :
  (String.length s <= n)%nat -> String.substring 0 n s = s.
Proof.
  revert n. induction s as [|c s IH]; intros [|n] H; cbn in *; try reflexivity.
  - lia.
  - rewrite IH by lia. reflexivity.
Qed.

Lemma substring_0_prefix (s : string) (n m : nat) :
  (n <= m)%nat ->
  String.prefix (String.substring 0 n s) (String.substring 0 m s) = true.
Proof.
  revert n m. induction s as [|c s IH]; intros [|n] [|m] H; cbn; try reflexivity; try lia.
  destruct (Ascii.ascii_dec c c) as [_|Hne]; [|contradiction].
  apply IH. lia.
Qed.

Lemma visible_title_nonneg (title : string) (i : Z) :
  0 <= i ->
  visible_title title i =
  String.substring 0 (Z.to_nat (Z.min (i / 3) (Z.of_nat (String.length title)))) title.
Proof.
  intros Hi. unfold visible_title, slice_to.
  rewrite text_offset_quot, Z.quot_div_nonneg by lia.
  assert (H : (i / 3 <? 0) = false) by (apply Z.ltb_ge, Z.div_pos; lia).
  rewrite H. reflexivity.
Qed.

(** C8, as the code has it.  From frame 0 on, frame [i] shows the first
    [min(len(title), i // 3)] characters of the title: one more character
    every three frames, a rate that depends neither on the frame rate nor on
    the length of the sequence.  What is shown only grows with the frame
    index, and it is the whole title exactly from frame [3 * len(title)]
    on. *)
Theorem title_reveal_rate (title : string) (i j : Z) :
  0 <= i <= j ->
  Z.of_nat (String.length (visible_title title i))
    = Z.min (i / 3) (Z.of_nat (String.length title))
  /\ String.prefix (visible_title title i) (visible_title title j) = true
  /\ (visible_title title i = title <-> 3 * Z.of_nat (String.length title) <= i).
Proof.
  intros [Hi Hij].
  assert (Hdiv : 0 <= i / 3) by (apply Z.div_pos; lia).
  assert (Hlen : Z.of_nat (String.length (visible_title title i))
                 = Z.min (i / 3) (Z.of_nat (String.length title))).
  { rewrite visible_title_nonneg, substring_0_length by lia. lia. }
  split; [exact Hlen|]. split.
  - rewrite (visible_title_nonneg title j), (visible_title_nonneg title i) by lia.
    apply substring_0_prefix.
    pose proof (Z.div_le_mono i j 3 ltac:(lia) Hij). lia.
  - split.
    + intros Heq. rewrite Heq in Hlen.
      assert (Z.of_nat (String.length title) <= i / 3) by lia.
      pose proof (Z.mul_div_le i 3 ltac:(lia)). lia.
    + intros Hfull. rewrite visible_title_nonneg by lia.
      apply substring_0_all.
      assert (Z.of_nat (String.length title) <= i / 3)
        by (apply Z.div_le_lower_bound; lia).
      lia.
Qed.

(** ** Loops that write frames *)

Lemma range_length (a b : Z) : length (range a b) = Z.to_nat (b - a).
Proof. unfold range. rewrite length_map, length_seq. reflexivity. Qed.

Lemma range_lookup (a b : Z) (i : nat) :
  (i < Z.to_nat (b - a))%nat -> range a b !! i = Some (a + Z.of_nat i).
Proof.
  intros Hi. unfold range. rewrite list_lookup_fmap, lookup_seq_lt by assumption.
  reflexivity.
Qed.

Lemma range_elem (a b x : Z) : x ∈ range a b -> a <= x < b.
Proof.
  unfold range. intros Hx. apply list_elem_of_fmap in Hx as (i & -> & Hi).
  apply elem_of_seq in Hi. lia.
Qed.

Lemma insert_alter_same (m : gmap string file) (k : string) (f : file -> file) (x : file) :
  <[k := x]> (alter f k m) = <[k := x]> m.
Proof.
  apply map_eq. intros j. rewrite !lookup_insert.
  case_decide; [reflexivity|]. rewrite lookup_alter_ne by assumption. reflexivity.
Qed.

(** A loop whose body hands one frame to the writer [out] at each turn
    leaves in the file the frames of the turns, in the order of the turns;
    [figs x] are the canvases the turn for [x] draws. *)
Lemma for_each_frames {A} (xs : list A) (body : A -> M unit) (out : string)
    (P : A -> Image -> Prop) (figs : A -> list Figure) :
  (forall x, x ∈ xs -> forall w, exists img w',
      P x img /\ body x w = (Ok tt, w') /\
      w_fs w' = alter (append_frame img) out (w_fs w) /\
      w_drawn w' = (w_drawn w ++ figs x)%list /\
      w_encoded w' = w_encoded w) ->
  forall w v, w_fs w !! out = Some (FVideo v) ->
  exists w' imgs,
    for_each xs body w = (Ok tt, w') /\
    Forall2 P xs imgs /\
    w_fs w' = <[out := FVideo (mkVideoFile (vf_fps v) (vf_size v) (vf_frames v ++ imgs))]>
                (w_fs w) /\
    w_drawn w' = (w_drawn w ++ concat (map figs xs))%list /\
    w_encoded w' = w_encoded w.
Proof.
  induction xs as [|x xs IH]; intros Hbody w v Hout.
  - exists w, []. split; [reflexivity|]. split; [constructor|].
    split; [|split; [cbn; rewrite app_nil_r; reflexivity | reflexivity]].
    rewrite app_nil_r. symmetry. apply insert_id. rewrite Hout. destruct v; reflexivity.
  - destruct (Hbody x ltac:(left) w) as (img & w1 & HP & Hrun & Hfs & Hdr & Henc).
    assert (Hout1 : w_fs w1 !! out
                    = Some (FVideo (mkVideoFile (vf_fps v) (vf_size v) (vf_frames v ++ [img])))).
    { rewrite Hfs, lookup_alter_eq, Hout. reflexivity. }
    destruct (IH (fun y Hy => Hbody y ltac:(right; exact Hy)) w1 _ Hout1)
      as (w' & imgs & Hloop & Hall & Hfs' & Hdr' & Henc').
    exists w', (img :: imgs).
    split; [|split; [|split; [|split]]].
    + cbn [for_each]. unfold bind at 1. rewrite Hrun. exact Hloop.
    + constructor; assumption.
    + rewrite Hfs', Hfs, insert_alter_same. cbn [vf_fps vf_size vf_frames].
      rewrite <- app_assoc. reflexivity.
    + rewrite Hdr', Hdr. cbn [map concat]. rewrite <- app_assoc. reflexivity.
    + congruence.
Qed.

Lemma has_resolution_get (cfg : gmap string value) (r0 r1 : Z) :
  has_resolution cfg r0 r1 ->
  exists res, config_get cfg "resolution" = Ok res /\
              unpack2 res = Ok (VInt r0, VInt r1) /\
              index res 0 = Ok (VInt r0) /\ index res 1 = Ok (VInt r1).
Proof.
  unfold config_get. intros [H | H]; rewrite H; eexists; repeat split; reflexivity.
Qed.

(** ** The title frames *)

(** A title frame is [r0] wide and [r1] high when the resolution entry is
    [(r0, r1)]. *)
Lemma title_frame_size
    (cfg : gmap string value) (r0 r1 i : Z) (title description : string) (img : Image) :
  has_resolution cfg r0 r1 ->
  _create_animated_frame cfg i title description = Ok img ->
  frame_size img = (r0, r1).
Proof.
  intros Hres. destruct (has_resolution_get _ _ _ Hres) as (res & Hget & _ & Hi0 & Hi1).
  unfold _create_animated_frame. rewrite Hget. cbn [rbind]. rewrite Hi1, Hi0. cbn [rbind].
  unfold np_zeros. cbn [as_int].
  destruct ((r1 <? 0) || (r0 <? 0)); [discriminate|]. cbn [rbind].
  destruct (config_get2 cfg "colors" "title_bg") as [bg|]; [|discriminate]. cbn [rbind].
  destruct (to_rgb bg) as [[[c0 c1] c2]|]; [|discriminate]. cbn [rbind].
  destruct (15 <? i); intros [= <-]; reflexivity.
Qed.




(** ** The chart frames *)

Lemma figure_raster_shape
    (fig : Figure) :
  im_rows (figure_raster fig) = snd (fig_size fig) * Zpos dpi /\
  im_cols (figure_raster fig) = fst (fig_size fig) * Zpos dpi.
Proof. split; reflexivity. Qed.

Lemma chart_figure_size (cfg : gmap string value) (x : list Z) (y : list Q)
    (chart_type : string) (fig : Figure) :
  chart_figure cfg x y chart_type = Ok fig -> fig_size fig = (16, 9).
Proof.
  unfold chart_figure, _create_chart_figure, _plot_data.
  destruct (config_get2 cfg "colors" "chart_bg"); [|discriminate]. cbn [rbind].
  destruct (draw_marks x y chart_type); [|discriminate]. cbn [rbind].
  destruct (list_min_Z x); [|discriminate]. cbn [rbind].
  destruct (list_max_Z x); [|discriminate]. cbn [rbind].
  destruct (list_min_Q y); [|discriminate]. cbn [rbind].
  destruct (list_max_Q y); [|discriminate]. cbn [rbind].
  intros [= <-]. reflexivity.
Qed.

Lemma draw_marks_ok (x : list Z) (y : list Q) (chart_type : string) :
  length x = length y -> exists marks, draw_marks x y chart_type = Ok marks.
Proof.
  intros Hlen. unfold draw_marks, broadcast.
  rewrite Hlen, Nat.eqb_refl.
  destruct (String.eqb chart_type "line"); [eexists; reflexivity|].
  destruct (String.eqb chart_type "bar"); [eexists; reflexivity|].
  destruct (String.eqb chart_type "scatter"); eexists; reflexivity.
Qed.

(** A window of as many x as y, not empty, gives a figure. *)
Lemma chart_figure_ok (cfg : gmap string value) (x : list Z) (y : list Q)
    (chart_type : string) (bg : value) :
  config_get2 cfg "colors" "chart_bg" = Ok bg ->
  length x = length y -> x <> [] ->
  exists fig, chart_figure cfg x y chart_type = Ok fig.
Proof.
  intros Hbg Hlen Hx.
  destruct (draw_marks_ok x y chart_type Hlen) as [marks Hmarks].
  unfold chart_figure, _create_chart_figure, _plot_data.
  rewrite Hbg. cbn [rbind]. rewrite Hmarks. cbn [rbind].
  destruct x as [|x0 x]; [contradiction|].
  destruct y as [|y0 y]; [discriminate|].
  cbn [list_min_Z list_max_Z list_min_Q list_max_Q rbind].
  eexists. reflexivity.
Qed.

(** The image of a frame has the size asked of [cv2.resize]. *)
Lemma chart_image_size
    (cfg : gmap string value) (x : list Z) (y : list Q) (chart_type : string)
    (width height frame : Z) (img : Image) :
  chart_image cfg x y chart_type (VInt width, VInt height) frame = Ok img ->
  frame_size img = (width, height).
Proof.
  unfold chart_image.
  destruct (chart_figure cfg x y chart_type) as [fig|]; [|discriminate]. cbn [rbind].
  unfold cv2_resize. cbn [fst snd as_int].
  destruct (_ || _); [discriminate|]. cbn [rbind].
  destruct (1 <? frame).
  - match goal with |- _apply_transition ?i _ = _ -> _ =>
      destruct (apply_transition_ok i frame) as (img' & -> & Hr & Hc) end.
    intros [= <-]. unfold frame_size, frame_width, frame_height. rewrite Hr, Hc. reflexivity.
  - intros [= <-]. reflexivity.
Qed.

Lemma chart_image_ok
    (cfg : gmap string value) (x : list Z) (y : list Q) (chart_type : string)
    (width height frame : Z) (bg : value) :
  config_get2 cfg "colors" "chart_bg" = Ok bg ->
  length x = length y -> x <> [] -> 0 < width -> 0 < height ->
  exists fig img,
    chart_figure cfg x y chart_type = Ok fig /\
    chart_image cfg x y chart_type (VInt width, VInt height) frame = Ok img.
Proof.
  intros Hbg Hlen Hx Hw Hh.
  destruct (chart_figure_ok cfg x y chart_type bg Hbg Hlen Hx) as [fig Hfig].
  exists fig. unfold chart_image. rewrite Hfig. cbn [rbind].
  unfold cv2_resize. cbn [fst snd as_int].
  destruct (figure_raster_shape fig) as [Hr Hc].
  rewrite Hr, Hc, (chart_figure_size _ _ _ _ _ Hfig). cbn [fst snd].
  assert (Hno : (width <=? 0) || (height <=? 0) || (9 * Z.pos dpi <=? 0)
                || (16 * Z.pos dpi <=? 0) = false).
  { repeat (apply orb_false_iff; split); apply Z.leb_gt; lia. }
  rewrite Hno. cbn [rbind].
  destruct (1 <? frame).
  - match goal with |- context [_apply_transition ?i _] =>
      destruct (apply_transition_ok i frame) as (img' & -> & _) end.
    eexists. split; reflexivity.
  - eexists. split; reflexivity.
Qed.

(** The loop body produces the image of [chart_image] and draws the figure
    of [chart_figure]. *)
Lemma chart_frame_run
    (cfg : gmap string value) (x : list Z) (y : list Q) (chart_type : string)
    (size : value * value) (frame : Z) (fig : Figure) (img : Image) (w : World) :
  chart_figure cfg x y chart_type = Ok fig ->
  chart_image cfg x y chart_type size frame = Ok img ->
  chart_frame cfg x y chart_type size frame w = (Ok img, canvas_draw fig w).
Proof.
  unfold chart_image, chart_frame. intros Hfig. rewrite Hfig. cbn [rbind].
  unfold chart_figure in Hfig. unfold bind, lift, _figure_to_image, modify, ret.
  destruct (_create_chart_figure cfg) as [fig0|]; [|discriminate]. cbn [rbind] in Hfig.
  rewrite Hfig. unfold bind.
  destruct (cv2_resize (figure_raster fig) size) as [img0|]; [|discriminate].
  cbn [rbind]. destruct (1 <? frame); intros ->; reflexivity.
Qed.

(** What a run of [generate_chart_animation] leaves behind on a series of
    as many years as values, once the chart type is accepted. *)
Lemma generate_chart_animation_run
    (cfg : gmap string value) (r0 r1 : Z) (vfps bg : value) (fps : Q)
    (data : ChartData) (output_path chart_type : string) (w : World) :
  _validate_chart_type cfg chart_type = Ok tt ->
  has_resolution cfg r0 r1 -> 0 < r0 -> 0 < r1 ->
  cfg !! "fps" = Some vfps -> as_number vfps = Some fps ->
  config_get2 cfg "colors" "chart_bg" = Ok bg ->
  length (years data) = length (values data) ->
  let path := path_join output_path "chart_animation.mp4" in
  exists w' imgs,
    generate_chart_animation cfg data output_path chart_type w
    = (Ok path, w') /\
    Forall2 (fun k img =>
               chart_image cfg
                 (take (Z.to_nat k) (years data)) (take (Z.to_nat k) (values data))
                 chart_type (VInt r1, VInt r0) k = Ok img)
            (range 1 (Z.of_nat (length (years data)) + 1)) imgs /\
    w_fs w' = <[path := FVideo (mkVideoFile fps (r1, r0) imgs)]> (w_fs w) /\
    w_encoded w' = w_encoded w.
Proof.
  intros Hval Hres H0 H1 Hfps Hnum Hbg Hlen path.
  destruct (has_resolution_get _ _ _ Hres) as (res & Hget & Hun & _ & _).
  set (w0 := set_fs (insert path (FVideo (mkVideoFile fps (r1, r0) []))) w).
  set (body := fun frame : Z =>
         img <~ chart_frame cfg (take (Z.to_nat frame) (years data))
                  (take (Z.to_nat frame) (values data)) chart_type (VInt r1, VInt r0) frame ;;
         VideoWriter_write path img).
  destruct (for_each_frames (range 1 (Z.of_nat (length (years data)) + 1)) body path
              (fun k img =>
                 chart_image cfg
                   (take (Z.to_nat k) (years data)) (take (Z.to_nat k) (values data))
                   chart_type (VInt r1, VInt r0) k = Ok img)
              (fun k => match chart_figure cfg (take (Z.to_nat k) (years data))
                                (take (Z.to_nat k) (values data)) chart_type with
                        | Ok fig => [fig]
                        | Raise _ => []
                        end))
    with (w := w0) (v := mkVideoFile fps (r1, r0) [])
    as (w' & imgs & Hloop & Hall & Hfs & _ & Henc).
  { intros k Hk wk. apply range_elem in Hk.
    destruct (chart_image_ok cfg
                (take (Z.to_nat k) (years data)) (take (Z.to_nat k) (values data))
                chart_type r1 r0 k bg Hbg) as (fig & img & Hfig & Himg); try assumption.
    { rewrite !length_take, Hlen. reflexivity. }
    { intros Hnil. apply (f_equal length) in Hnil.
      rewrite length_take in Hnil. cbn in Hnil. lia. }
    exists img, (set_fs (alter (append_frame img) path) (canvas_draw fig wk)).
    split; [exact Himg|].
    split; [|split; [reflexivity | split; [|reflexivity]]].
    - unfold body, bind.
      rewrite (chart_frame_run _ _ _ _ _ _ fig img wk Hfig Himg). reflexivity.
    - rewrite Hfig. reflexivity. }
  { subst w0. cbn. apply lookup_insert_eq. }
  exists w', imgs. split; [|split; [exact Hall | split]].
  - unfold generate_chart_animation, bind, lift.
    rewrite Hval, Hget, Hun. cbn [fst snd].
    unfold config_get. rewrite Hfps.
    unfold VideoWriter_open. rewrite Hnum. cbn [as_int fst snd].
    unfold bind, modify, ret.
    fold path. fold w0.
    change (for_each (range 1 _) _ w0)
      with (for_each (range 1 (Z.of_nat (length (years data)) + 1)) body w0).
    rewrite Hloop. reflexivity.
  - rewrite Hfs. subst w0. cbn. rewrite insert_insert_eq. reflexivity.
  - rewrite Henc. reflexivity.
Qed.

(** C2. For a series of [N >= 1] points and an accepted chart type,
    [generate_chart_animation] writes exactly [N] frames, and for each [k]
    from 1 to [N] the frame at position [k - 1] of the segment is the image
    rendered from the first [k] years and the first [k] values. *)
Theorem chart_animation_frames
    (cfg : gmap string value) (r0 r1 : Z) (vfps bg : value) (fps : Q)
    (data : ChartData) (output_path chart_type : string) (w : World) (N : nat) :
  length (years data) = N -> length (values data) = N -> (1 <= N)%nat ->
  _validate_chart_type cfg chart_type = Ok tt ->
  has_resolution cfg r0 r1 -> 0 < r0 -> 0 < r1 ->
  cfg !! "fps" = Some vfps -> as_number vfps = Some fps ->
  config_get2 cfg "colors" "chart_bg" = Ok bg ->
  exists w' v,
    generate_chart_animation cfg data output_path chart_type w
    = (Ok (path_join output_path "chart_animation.mp4"), w') /\
    w_fs w' !! path_join output_path "chart_animation.mp4" = Some (FVideo v) /\
    length (vf_frames v) = N /\
    forall k : nat, (1 <= k <= N)%nat ->
      exists img,
        vf_frames v !! (k - 1)%nat = Some img /\
        chart_image cfg (take k (years data)) (take k (values data))
          chart_type (VInt r1, VInt r0) (Z.of_nat k) = Ok img.
Proof.
  intros Hy Hv HN Hval Hres H0 H1 Hfps Hnum Hbg.
  destruct (generate_chart_animation_run cfg r0 r1 vfps bg fps data
              output_path chart_type w Hval Hres H0 H1 Hfps Hnum Hbg ltac:(congruence))
    as (w' & imgs & Hrun & Hall & Hfs & _).
  rewrite Hy in Hall.
  exists w', (mkVideoFile fps (r1, r0) imgs).
  split; [exact Hrun|]. split; [rewrite Hfs; apply lookup_insert_eq|].
  cbn [vf_frames].
  assert (Hlen : length imgs = N).
  { apply Forall2_length in Hall. rewrite <- Hall, range_length. lia. }
  split; [exact Hlen|].
  intros k Hk.
  assert (Hrk : range 1 (Z.of_nat N + 1) !! (k - 1)%nat = Some (Z.of_nat k)).
  { rewrite range_lookup by lia. f_equal. lia. }
  destruct (Forall2_lookup_l _ _ _ _ _ Hall Hrk) as (img & Himg & HP).
  exists img. split; [exact Himg|].
  rewrite Nat2Z.id in HP. exact HP.
Qed.

(** ** Frame sizes of the two segments *)

Lemma Forall2_Forall_frames {A} (P : A -> Image -> Prop) (Q : Image -> Prop)
    (xs : list A) (imgs : list Image) :
  (forall x img, P x img -> Q img) -> Forall2 P xs imgs -> Forall Q imgs.
Proof. intros HPQ H. induction H; constructor; eauto. Qed.

(** With the resolution entry [(r0, r1)], the title frames are [r0] wide and
    [r1] high and the chart frames [r1] wide and [r0] high. *)
Lemma frame_sizes_by_resolution
    (cfg : gmap string value) (r0 r1 : Z) :
  has_resolution cfg r0 r1 ->
  (forall i title description img,
     _create_animated_frame cfg i title description = Ok img ->
     frame_size img = (r0, r1)) /\
  (forall x y chart_type frame img,
     chart_image cfg x y chart_type (VInt r1, VInt r0) frame = Ok img ->
     frame_size img = (r1, r0)).
Proof.
  intros Hres. split; intros.
  - eapply title_frame_size; eassumption.
  - eapply chart_image_size; eassumption.
Qed.

(** ** Media assembly *)









(** * Further properties *)

(** ** Configuration loading *)

Lemma default_config_recognized (k : string) :
  k ∈ recognized_keys -> is_Some (default_config !! k).
Proof.
  unfold recognized_keys. intros Hk.
  repeat (apply elem_of_cons in Hk as [-> | Hk]; [eexists; reflexivity|]).
  apply elem_of_nil in Hk. destruct Hk.
Qed.

Lemma load_config_object (w : World) (path text : string)
    (items : list (string * value)) :
  path <> "" ->
  w_fs w !! path = Some (FText text) ->
  json_load text = Ok (VDict items) ->
  exists cfg,
    _load_config (Some path) w = (Ok cfg, w) /\
    forall k, cfg !! k = match dict_get items k with
                         | Some v => Some v
                         | None => default_config !! k
                         end.
Proof.
  intros Hpath Hfile Hjson.
  exists (dict_update default_config items). split.
  - unfold _load_config, path_exists, open_json.
    rewrite (truthy_path_Some _ Hpath), Hfile, Hjson. reflexivity.
  - intros k. apply dict_update_lookup.
Qed.

(** X1. A readable document that decodes to an object is laid over the
    defaults key by key: a key of the document takes the document's value
    (the last one, if the document repeats the key), whether or not the
    generator knows the key, and every other key keeps its default. *)
Theorem load_config_overlay (w : World) (path text : string)
    (items : list (string * value)) :
  path <> "" ->
  w_fs w !! path = Some (FText text) ->
  json_load text = Ok (VDict items) ->
  exists cfg,
    _load_config (Some path) w = (Ok cfg, w) /\
    (forall k v, dict_get items k = Some v -> cfg !! k = Some v) /\
    (forall k, dict_get items k = None -> cfg !! k = default_config !! k).
Proof.
  intros Hpath Hfile Hjson.
  destruct (load_config_object w path text items Hpath Hfile Hjson) as (cfg & Hrun & Hlk).
  exists cfg. split; [exact Hrun|]. split.
  - intros k v Hk. rewrite Hlk, Hk. reflexivity.
  - intros k Hk. rewrite Hlk, Hk. reflexivity.
Qed.

(** X2. Whatever the path, the file system and the decoder, [_load_config]
    leaves the world as it found it, and a configuration it returns binds
    every recognized key, so that reading one of them never raises
    [KeyError]. *)
Theorem load_config_binds_recognized_keys (w w' : World) (config_path : option string)
    (r : result (gmap string value)) :
  _load_config config_path w = (r, w') ->
  w' = w /\
  forall cfg k, r = Ok cfg -> k ∈ recognized_keys ->
                exists v, config_get cfg k = Ok v.
Proof.
  unfold _load_config. intros Hrun.
  assert (Hdef : forall cfg k, Ok default_config = Ok cfg -> k ∈ recognized_keys ->
                               exists v, config_get cfg k = Ok v).
  { intros cfg k [= <-] Hk. destruct (default_config_recognized k Hk) as [v Hv].
    exists v. unfold config_get. rewrite Hv. reflexivity. }
  destruct (truthy_path config_path) as [p|].
  - destruct (path_exists w p).
    + destruct (open_json w p) as [[| | | | | | |items]|e];
        injection Hrun as <- <-; (split; [reflexivity|]); try discriminate.
      intros cfg k [= <-] Hk. unfold config_get.
      rewrite dict_update_lookup.
      destruct (dict_get items k) as [v|]; [exists v; reflexivity|].
      destruct (default_config_recognized k Hk) as [v Hv].
      exists v. rewrite Hv. reflexivity.
    + injection Hrun as <- <-. split; [reflexivity | exact Hdef].
  - injection Hrun as <- <-. split; [reflexivity | exact Hdef].
Qed.

(** X3. The overlay is shallow: when the document gives a top-level key a
    dict that lacks the nested key [k2], reading [config[k][k2]] raises
    [KeyError], even where the default dict has that nested key. *)
Theorem load_config_nested_default_lost (w : World) (path text : string)
    (items kvs : list (string * value)) (k k2 : string) :
  path <> "" ->
  w_fs w !! path = Some (FText text) ->
  json_load text = Ok (VDict items) ->
  dict_get items k = Some (VDict kvs) ->
  dict_get kvs k2 = None ->
  exists cfg,
    _load_config (Some path) w = (Ok cfg, w) /\
    config_get2 cfg k k2 = Raise (KeyError k2).
Proof.
  intros Hpath Hfile Hjson Hk Hk2.
  destruct (load_config_object w path text items Hpath Hfile Hjson) as (cfg & Hrun & Hlk).
  exists cfg. split; [exact Hrun|].
  unfold config_get2. rewrite Hlk, Hk, Hk2. reflexivity.
Qed.

(** ** The voice-over *)

(** X4. A document whose voice entry sets the rate and no volume loads
    well, and every later [create_voiceover] raises [KeyError] for the
    volume, after the rate of the engine has been set and before anything
    is written. *)
Theorem partial_voice_entry_breaks_voiceover (w : World) (path text : string)
    (items kvs : list (string * value)) (rate : value) :
  path <> "" ->
  w_fs w !! path = Some (FText text) ->
  json_load text = Ok (VDict items) ->
  dict_get items "voice" = Some (VDict kvs) ->
  dict_get kvs "rate" = Some rate ->
  dict_get kvs "volume" = None ->
  exists cfg,
    _load_config (Some path) w = (Ok cfg, w) /\
    forall narration output_path engine w1,
      create_voiceover cfg narration output_path engine w1
      = (Raise (KeyError "volume"), set_rate rate engine, w1).
Proof.
  intros Hpath Hfile Hjson Hvoice Hrate Hvol.
  destruct (load_config_object w path text items Hpath Hfile Hjson) as (cfg & Hrun & Hlk).
  exists cfg. split; [exact Hrun|].
  intros narration output_path engine w1.
  unfold create_voiceover, config_get2. rewrite Hlk, Hvoice, Hrate, Hvol. reflexivity.
Qed.

Lemma create_voiceover_run (cfg : gmap string value)
    (narration output_path : string) (engine : Engine) (w : World)
    (rate volume voice_id : value) (voices : list string) (audio : AudioClip) :
  config_get2 cfg "voice" "rate" = Ok rate ->
  config_get2 cfg "voice" "volume" = Ok volume ->
  config_get2 cfg "voice" "voice_id" = Ok voice_id ->
  get_voices (mkEngine rate volume (e_voice engine)) = Ok voices ->
  let chosen := match truthy voice_id, voices with
                | true, _ :: second :: _ => second
                | _, _ => e_voice engine
                end in
  synth narration (mkEngine rate volume chosen) = Ok audio ->
  create_voiceover cfg narration output_path engine w
  = (Ok (path_join output_path "voiceover.mp3"),
     mkEngine rate volume chosen,
     set_fs (insert (path_join output_path "voiceover.mp3") (FAudio audio)) w).
Proof.
  intros Hrate Hvol Hid Hvoices chosen Hsynth.
  unfold create_voiceover. rewrite Hrate, Hvol, Hid.
  unfold select_voice, set_volume, set_rate, set_voice. cbn [e_rate e_volume e_voice].
  subst chosen. destruct (truthy voice_id).
  - rewrite Hvoices. cbn [rbind].
    destruct voices as [|first [|second rest]]; cbn [e_rate e_volume e_voice] in *;
      rewrite Hsynth; reflexivity.
  - rewrite Hsynth. reflexivity.
Qed.

(** X5. The configured [voice_id] acts as a flag only.  When the voice
    entry is complete and the driver works, the voice-over is written under
    the output directory with the configured rate and volume, and the voice
    of the engine is the second installed voice if [voice_id] is true and at
    least two voices are installed, and the voice the engine had otherwise;
    the value of [voice_id] never reaches the engine. *)
Theorem create_voiceover_voice_choice (cfg : gmap string value)
    (narration output_path : string) (engine : Engine) (w : World)
    (rate volume voice_id : value) (voices : list string) (audio : AudioClip) :
  config_get2 cfg "voice" "rate" = Ok rate ->
  config_get2 cfg "voice" "volume" = Ok volume ->
  config_get2 cfg "voice" "voice_id" = Ok voice_id ->
  get_voices (mkEngine rate volume (e_voice engine)) = Ok voices ->
  let chosen := match truthy voice_id, voices with
                | true, _ :: second :: _ => second
                | _, _ => e_voice engine
                end in
  synth narration (mkEngine rate volume chosen) = Ok audio ->
  create_voiceover cfg narration output_path engine w
  = (Ok (path_join output_path "voiceover.mp3"),
     mkEngine rate volume chosen,
     set_fs (insert (path_join output_path "voiceover.mp3") (FAudio audio)) w)
  /\ (e_voice (mkEngine rate volume chosen) = e_voice engine
      \/ exists first rest, voices = first :: chosen :: rest).
Proof.
  intros Hrate Hvol Hid Hvoices chosen Hsynth. split.
  - exact (create_voiceover_run cfg narration output_path engine w rate volume voice_id
             voices audio Hrate Hvol Hid Hvoices Hsynth).
  - subst chosen. cbn [e_voice].
    destruct (truthy voice_id); [|left; reflexivity].
    destruct voices as [|first [|second rest]]; [left; reflexivity | left; reflexivity|].
    right. exists first, rest. reflexivity.
Qed.

(** ** The axis limits of a chart *)

Lemma fold_Zmin_le (l : list Z) (a : Z) :
  fold_left Z.min l a <= a /\ forall x, x ∈ l -> fold_left Z.min l a <= x.
Proof.
  revert a. induction l as [|b l IH]; intros a; cbn [fold_left].
  - split; [lia|]. intros x Hx. apply elem_of_nil in Hx. destruct Hx.
  - destruct (IH (Z.min a b)) as [Ha Hl]. split; [lia|].
    intros x Hx. apply elem_of_cons in Hx as [-> | Hx]; [lia | exact (Hl x Hx)].
Qed.

Lemma fold_Zmax_ge (l : list Z) (a : Z) :
  a <= fold_left Z.max l a /\ forall x, x ∈ l -> x <= fold_left Z.max l a.
Proof.
  revert a. induction l as [|b l IH]; intros a; cbn [fold_left].
  - split; [lia|]. intros x Hx. apply elem_of_nil in Hx. destruct Hx.
  - destruct (IH (Z.max a b)) as [Ha Hl]. split; [lia|].
    intros x Hx. apply elem_of_cons in Hx as [-> | Hx]; [lia | exact (Hl x Hx)].
Qed.




(** X6. Whenever [_plot_data] returns, the x-axis runs from one below the
    smallest x to one above the largest: every x of the window lies strictly
    inside the limits. *)
Theorem plot_xlim_contains_window (fig fig' : Figure) (x : list Z) (y : list Q)
    (chart_type : string) :
  _plot_data fig x y chart_type = Ok fig' ->
  exists lo hi,
    ax_xlim fig' = Some (lo, hi) /\
    forall xi, xi ∈ x -> lo < xi < hi.
Proof.
  unfold _plot_data.
  destruct (draw_marks x y chart_type) as [marks|]; [|discriminate]. cbn [rbind].
  destruct x as [|x0 x]; [discriminate|]. cbn [list_min_Z list_max_Z rbind].
  destruct (list_min_Q y) as [ymin|]; [|discriminate]. cbn [rbind].
  destruct (list_max_Q y) as [ymax|]; [|discriminate]. cbn [rbind].
  intros [= <-]. eexists. eexists. split; [reflexivity|].
  intros xi Hxi.
  destruct (fold_Zmin_le x x0) as [Hmin0 Hmin].
  destruct (fold_Zmax_ge x x0) as [Hmax0 Hmax].
  apply elem_of_cons in Hxi as [-> | Hxi].
  - lia.
  - specialize (Hmin xi Hxi). specialize (Hmax xi Hxi). lia.
Qed.


(** ** The rasters of the title *)









(** X10. A frame rate given as a float is accepted by the writer but not by
    [range]: [create_title_screen] raises [TypeError] once the segment file
    has been created, and leaves it with no frame. *)
Theorem title_screen_float_fps (cfg : gmap string value) (r0 r1 : Z) (q : Q)
    (title description output_path : string) (w : World) :
  has_resolution cfg r0 r1 ->
  cfg !! "fps" = Some (VFloat q) ->
  create_title_screen cfg title description output_path w
  = (Raise TypeError,
     set_fs (insert (path_join output_path "title_screen.mp4")
                    (FVideo (mkVideoFile q (r1, r0) []))) w).
Proof.
  intros Hres Hfps.
  destruct (has_resolution_get _ _ _ Hres) as (res & Hget & Hun & _ & _).
  unfold create_title_screen, bind, lift. rewrite Hget, Hun.
  unfold config_get. rewrite Hfps. reflexivity.
Qed.

(** ** Edge cases of the chart animation *)

Lemma for_each_app {A} (xs ys : list A) (body : A -> M unit) (w : World) :
  for_each (xs ++ ys) body w =
  match for_each xs body w with
  | (Ok _, w') => for_each ys body w'
  | (Raise e, w') => (Raise e, w')
  end.
Proof.
  revert w. induction xs as [|x xs IH]; intros w; [reflexivity|].
  cbn [app for_each]. unfold bind.
  destruct (body x w) as [[[]|e] w1]; [apply IH | reflexivity].
Qed.

Lemma for_each_ext {A} (xs : list A) (body1 body2 : A -> M unit) (w : World) :
  (forall x w1, x ∈ xs -> body1 x w1 = body2 x w1) ->
  for_each xs body1 w = for_each xs body2 w.
Proof.
  revert w. induction xs as [|x xs IH]; intros w Hext; [reflexivity|].
  cbn [for_each]. unfold bind. rewrite (Hext x w) by (left).
  destruct (body2 x w) as [[[]|e] w1]; [|reflexivity].
  apply IH. intros y w2 Hy. apply Hext. right. exact Hy.
Qed.

Lemma range_split (a b c : Z) : a <= b <= c -> range a c = (range a b ++ range b c)%list.
Proof.
  intros [Hab Hbc]. unfold range.
  replace (Z.to_nat (c - a)) with (Z.to_nat (b - a) + Z.to_nat (c - b))%nat by lia.
  rewrite seq_app, map_app. f_equal.
  assert (Hs : seq (0 + Z.to_nat (b - a)) (Z.to_nat (c - b))
               = Nat.add (Z.to_nat (b - a)) <$> seq 0 (Z.to_nat (c - b))).
  { rewrite fmap_add_seq. f_equal. lia. }
  rewrite Hs. change (@map) with (@fmap list _). rewrite <- list_fmap_compose.
  apply list_fmap_ext. intros _ i _. cbn. lia.
Qed.

Lemma range_cons (a b : Z) : a < b -> range a b = a :: range (a + 1) b.
Proof.
  intros Hab. rewrite (range_split a (a + 1) b) by lia.
  unfold range at 1. replace (a + 1 - a) with 1 by lia.
  change (Z.to_nat 1) with 1%nat. cbn [seq map app Z.of_nat].
  rewrite Z.add_0_r. reflexivity.
Qed.

(** X11. On an empty series [generate_chart_animation] creates the segment
    file with no frame and returns its path; no canvas is drawn. *)
Theorem chart_animation_empty_series (cfg : gmap string value) (r0 r1 : Z)
    (vfps : value) (fps : Q) (data : ChartData) (output_path chart_type : string)
    (w : World) :
  years data = [] ->
  _validate_chart_type cfg chart_type = Ok tt ->
  has_resolution cfg r0 r1 ->
  cfg !! "fps" = Some vfps -> as_number vfps = Some fps ->
  generate_chart_animation cfg data output_path chart_type w
  = (Ok (path_join output_path "chart_animation.mp4"),
     set_fs (insert (path_join output_path "chart_animation.mp4")
                    (FVideo (mkVideoFile fps (r1, r0) []))) w).
Proof.
  intros Hy Hval Hres Hfps Hnum.
  destruct (has_resolution_get _ _ _ Hres) as (res & Hget & Hun & _ & _).
  unfold generate_chart_animation, bind, lift.
  rewrite Hval, Hget, Hun. cbn [fst snd].
  unfold config_get. rewrite Hfps.
  unfold VideoWriter_open. rewrite Hnum. cbn [as_int fst snd].
  rewrite Hy. reflexivity.
Qed.

(** X12. Values beyond the number of years are never read: the run on a
    series is the run on the same series with the values cut to the number
    of years. *)
Theorem chart_animation_ignores_surplus_values (cfg : gmap string value)
    (data : ChartData) (output_path chart_type : string) (w : World) :
  generate_chart_animation cfg
    (mkChartData (years data) (take (length (years data)) (values data)))
    output_path chart_type w
  = generate_chart_animation cfg data output_path chart_type w.
Proof.
  unfold generate_chart_animation, bind. cbn [years values].
  destruct (lift (_validate_chart_type cfg chart_type) w) as [[[]|e] w0]; [|reflexivity].
  destruct (lift (config_get cfg "resolution") w0) as [[res|e] w1]; [|reflexivity].
  destruct (lift (unpack2 res) w1) as [[hw|e] w2]; [|reflexivity].
  destruct (lift (config_get cfg "fps") w2) as [[fps|e] w3]; [|reflexivity].
  destruct (VideoWriter_open _ fps _ w3) as [[out|e] w4]; [|reflexivity].
  match goal with
  | |- (let (_, _) := for_each ?xs ?b1 _ in _) = (let (_, _) := for_each _ ?b2 _ in _) =>
      rewrite (for_each_ext xs b1 b2)
  end; [reflexivity|].
  intros k w5 Hk. apply range_elem in Hk.
  rewrite take_take.
  replace (Z.to_nat k `min` length (years data))%nat with (Z.to_nat k) by lia.
  reflexivity.
Qed.

(** X13. When the values are fewer than the years, a line or scatter
    animation writes one frame per value and then raises [ValueError] on
    the first window whose x and y differ in length; the segment file stays
    behind with the frames written so far. *)
Theorem chart_animation_short_values (cfg : gmap string value) (r0 r1 : Z)
    (vfps bg : value) (fps : Q) (data : ChartData) (output_path chart_type : string)
    (w : World) :
  (length (values data) < length (years data))%nat ->
  chart_type = "line" \/ chart_type = "scatter" ->
  _validate_chart_type cfg chart_type = Ok tt ->
  has_resolution cfg r0 r1 -> 0 < r0 -> 0 < r1 ->
  cfg !! "fps" = Some vfps -> as_number vfps = Some fps ->
  config_get2 cfg "colors" "chart_bg" = Ok bg ->
  exists w' v msg,
    generate_chart_animation cfg data output_path chart_type w
    = (Raise (ValueError msg), w') /\
    w_fs w' !! path_join output_path "chart_animation.mp4" = Some (FVideo v) /\
    length (vf_frames v) = length (values data) /\
    length (w_drawn w') = (length (w_drawn w) + length (values data))%nat.
Proof.
  intros Hshort Hct Hval Hres H0 H1 Hfps Hnum Hbg.
  destruct (has_resolution_get _ _ _ Hres) as (res & Hget & Hun & _ & _).
  set (path := path_join output_path "chart_animation.mp4").
  set (m := length (values data)) in *.
  set (w0 := set_fs (insert path (FVideo (mkVideoFile fps (r1, r0) []))) w).
  set (body := fun frame : Z =>
         img <~ chart_frame cfg (take (Z.to_nat frame) (years data))
                  (take (Z.to_nat frame) (values data)) chart_type (VInt r1, VInt r0) frame ;;
         VideoWriter_write path img).
  set (figs := fun k : Z =>
         match chart_figure cfg (take (Z.to_nat k) (years data))
                 (take (Z.to_nat k) (values data)) chart_type with
         | Ok fig => [fig]
         | Raise _ => []
         end).
  destruct (for_each_frames (range 1 (Z.of_nat m + 1)) body path
              (fun _ _ => True) figs)
    with (w := w0) (v := mkVideoFile fps (r1, r0) [])
    as (w1 & imgs & Hloop & Hall & Hfs & Hdr & _).
  { intros k Hk wk. apply range_elem in Hk.
    destruct (chart_image_ok cfg
                (take (Z.to_nat k) (years data)) (take (Z.to_nat k) (values data))
                chart_type r1 r0 k bg Hbg) as (fig & img & Hfig & Himg); try assumption.
    { rewrite !length_take. fold m. lia. }
    { intros Hnil. apply (f_equal length) in Hnil.
      rewrite length_take in Hnil. cbn in Hnil. lia. }
    exists img, (set_fs (alter (append_frame img) path) (canvas_draw fig wk)).
    split; [exact I|].
    split; [|split; [reflexivity | split; [|reflexivity]]].
    - unfold body, bind.
      rewrite (chart_frame_run _ _ _ _ _ _ fig img wk Hfig Himg). reflexivity.
    - unfold figs. rewrite Hfig. reflexivity. }
  { subst w0. cbn. apply lookup_insert_eq. }
  assert (Hfail : exists msg, body (Z.of_nat m + 1) w1 = (Raise (ValueError msg), w1)).
  { unfold body, bind, chart_frame, bind, lift.
    destruct (_create_chart_figure cfg) as [fig0|] eqn:Hfig0.
    2:{ unfold _create_chart_figure in Hfig0. rewrite Hbg in Hfig0. discriminate. }
    unfold _plot_data, draw_marks.
    assert (Hne : (length (take (Z.to_nat (Z.of_nat m + 1)) (years data))
                   =? length (take (Z.to_nat (Z.of_nat m + 1)) (values data)))%nat = false).
    { apply Nat.eqb_neq. rewrite !length_take. fold m. lia. }
    rewrite Hne.
    destruct Hct as [-> | ->]; cbn [String.eqb Ascii.eqb Bool.eqb rbind];
      eexists; reflexivity. }
  destruct Hfail as [msg Hfail].
  exists w1, (mkVideoFile fps (r1, r0) imgs), msg.
  split; [|split; [|split]].
  - unfold generate_chart_animation, bind, lift.
    rewrite Hval, Hget, Hun. cbn [fst snd].
    unfold config_get. rewrite Hfps.
    unfold VideoWriter_open. rewrite Hnum. cbn [as_int fst snd].
    unfold bind, modify, ret.
    fold path. fold w0.
    change (for_each (range 1 _) _ w0)
      with (for_each (range 1 (Z.of_nat (length (years data)) + 1)) body w0).
    rewrite (range_split 1 (Z.of_nat m + 1) (Z.of_nat (length (years data)) + 1)) by lia.
    rewrite for_each_app, Hloop.
    rewrite (range_cons (Z.of_nat m + 1)) by lia.
    cbn [for_each]. unfold bind at 1. rewrite Hfail. reflexivity.
  - rewrite Hfs. subst w0. cbn. rewrite insert_insert_eq. apply lookup_insert_eq.
  - cbn [vf_frames]. apply Forall2_length in Hall.
    rewrite <- Hall, range_length. lia.
  - rewrite Hdr. subst w0. cbn [w_drawn set_fs]. rewrite length_app. f_equal.
    assert (Hone : forall ks, (forall k, k ∈ ks -> 1 <= k < Z.of_nat m + 1) ->
                              length (concat (map figs ks)) = length ks).
    { induction ks as [|k ks IH]; intros Hks; [reflexivity|].
      cbn [map concat]. rewrite length_app, IH by (intros; apply Hks; right; assumption).
      cbn [length]. f_equal.
      destruct (chart_figure_ok cfg (take (Z.to_nat k) (years data))
                  (take (Z.to_nat k) (values data)) chart_type bg Hbg) as [fig Hfig].
      { rewrite !length_take. fold m. specialize (Hks k ltac:(left)). lia. }
      { intros Hnil. apply (f_equal length) in Hnil.
        rewrite length_take in Hnil. specialize (Hks k ltac:(left)). cbn in Hnil. lia. }
      unfold figs. rewrite Hfig. reflexivity. }
    rewrite Hone by (intros k Hk; apply range_elem in Hk; exact Hk).
    rewrite range_length. lia.
Qed.

(** ** Declared and actual frame sizes *)

(** X14. For every resolution of positive integers the chart segment is
    consistent: each frame written has exactly the frame size the writer was
    opened with. *)
Theorem chart_segment_frames_match_writer (cfg : gmap string value) (r0 r1 : Z)
    (vfps bg : value) (fps : Q) (data : ChartData) (output_path chart_type : string)
    (w : World) :
  _validate_chart_type cfg chart_type = Ok tt ->
  has_resolution cfg r0 r1 -> 0 < r0 -> 0 < r1 ->
  cfg !! "fps" = Some vfps -> as_number vfps = Some fps ->
  config_get2 cfg "colors" "chart_bg" = Ok bg ->
  length (years data) = length (values data) ->
  exists w' v,
    generate_chart_animation cfg data output_path chart_type w
    = (Ok (path_join output_path "chart_animation.mp4"), w') /\
    w_fs w' !! path_join output_path "chart_animation.mp4" = Some (FVideo v) /\
    Forall (fun img => frame_size img = vf_size v) (vf_frames v).
Proof.
  intros Hval Hres H0 H1 Hfps Hnum Hbg Hlen.
  destruct (generate_chart_animation_run cfg r0 r1 vfps bg fps data
              output_path chart_type w Hval Hres H0 H1 Hfps Hnum Hbg Hlen)
    as (w' & imgs & Hrun & Hall & Hfs & _).
  exists w', (mkVideoFile fps (r1, r0) imgs).
  split; [exact Hrun|]. split; [rewrite Hfs; apply lookup_insert_eq|].
  cbn [vf_frames vf_size].
  eapply Forall2_Forall_frames; [|exact Hall].
  intros k img Himg. exact (chart_image_size _ _ _ _ _ _ _ _ Himg).
Qed.


(** ** More on the chart type validation *)

Lemma all_str_None (vs : list value) (v : value) :
  v ∈ vs -> (forall s, v <> VStr s) -> all_str vs = None.
Proof.
  intros Hin Hv. induction vs as [|x vs IH].
  - apply elem_of_nil in Hin. destruct Hin.
  - apply elem_of_cons in Hin as [<- | Hin].
    + destruct v; try reflexivity. destruct (Hv s eq_refl).
    + cbn [all_str]. rewrite (IH Hin). destruct x; reflexivity.
Qed.

Lemma existsb_no_VStr (vs : list value) (s : string) :
  VStr s ∉ vs ->
  existsb (fun x => match x with VStr t => String.eqb t s | _ => false end) vs = false.
Proof.
  induction vs as [|x vs IH]; intros Hnot; [reflexivity|].
  cbn [existsb]. rewrite IH by (intros H; apply Hnot; right; exact H).
  destruct x; try reflexivity.
  destruct (String.eqb_spec s0 s) as [->|_]; [|reflexivity].
  destruct Hnot. left.
Qed.

(** X16. When the configured chart kinds hold an entry that is not a
    string, a chart type outside the list is not reported with the
    invalid-chart-type [ValueError]: building its message fails and
    [generate_chart_animation] raises [TypeError], with the world
    untouched. *)
Theorem invalid_chart_type_with_non_string_kind (cfg : gmap string value)
    (kinds : list value) (odd : value) (data : ChartData)
    (output_path chart_type : string) (w : World) :
  cfg !! "chart_types" = Some (VList kinds) ->
  odd ∈ kinds -> (forall s, odd <> VStr s) ->
  VStr chart_type ∉ kinds ->
  generate_chart_animation cfg data output_path chart_type w = (Raise TypeError, w).
Proof.
  intros Hcfg Hodd Hnot Hout.
  unfold generate_chart_animation, bind, lift, _validate_chart_type, config_get.
  rewrite Hcfg. cbn [rbind str_in]. rewrite (existsb_no_VStr _ _ Hout). cbn [negb].
  unfold join. cbn [py_iter]. rewrite (all_str_None _ _ Hodd Hnot). reflexivity.
Qed.

(** ** More on media assembly *)

Lemma VideoFileClip_world (path : string) (w w' : World) (r : result VideoClip) :
  VideoFileClip path w = (r, w') ->
  w' = w /\ (forall e, r = Raise e -> e = OSError path).
Proof.
  unfold VideoFileClip. intros H.
  destruct (w_fs w !! path) as [[]|]; injection H as <- <-;
    (split; [reflexivity|]); intros e [= <-]; reflexivity.
Qed.

Lemma AudioFileClip_world (path : string) (w w' : World) (r : result AudioClip) :
  AudioFileClip path w = (r, w') ->
  w' = w /\ (forall e, r = Raise e -> e = OSError path).
Proof.
  unfold AudioFileClip. intros H.
  destruct (w_fs w !! path) as [[| | |[? ? ? []]|]|]; injection H as <- <-;
    (split; [reflexivity|]); intros e [= <-]; reflexivity.
Qed.

(** X17. A background-music path that names nothing on disk is passed over
    in silence: the run is the run without music. *)
Theorem combine_media_missing_music_ignored
    (title_path animation_path voiceover_path output_path music_path : string)
    (w : World) :
  w_fs w !! music_path = None ->
  combine_media title_path animation_path voiceover_path output_path
    (Some music_path) w
  = combine_media title_path animation_path voiceover_path output_path None w.
Proof.
  intros Hnone. unfold combine_media, bind.
  destruct (VideoFileClip title_path w) as [[tc|e] w1] eqn:Ht; [|reflexivity].
  apply VideoFileClip_world in Ht as [-> _].
  destruct (VideoFileClip animation_path w) as [[ac|e] w1] eqn:Ha; [|reflexivity].
  apply VideoFileClip_world in Ha as [-> _].
  destruct (AudioFileClip voiceover_path w) as [[vc|e] w1] eqn:Hv; [|reflexivity].
  apply AudioFileClip_world in Hv as [-> _].
  unfold get_world, truthy_path, path_exists.
  destruct (String.eqb music_path ""); [reflexivity|].
  rewrite Hnone. reflexivity.
Qed.


(** ** The entry point *)




Lemma init_default (w : World) (engine : Engine) (voices : list string) :
  pyttsx3_init = Ok engine ->
  get_voices engine = Ok voices ->
  VideoGenerator_init None w = (inl (mkGenerator engine default_config), w).
Proof.
  intros Hinit Hv. unfold VideoGenerator_init, validate_dependencies.
  rewrite Hinit. cbn [_load_config truthy_path]. rewrite Hv. reflexivity.
Qed.


(** X20. [main] reports a failure and leaves the world untouched when the
    engine cannot start (the exception itself is reported), when the engine
    cannot list its voices (a [RuntimeError] for that exception is
    reported), and when [output] exists and is not a directory. *)
Theorem main_fails_before_any_output (draws : list Q) (w : World) :
  (forall e, pyttsx3_init = Raise e -> main draws w = (Failed (Exn e), w)) /\
  (forall engine e, pyttsx3_init = Ok engine -> get_voices engine = Raise e ->
                    main draws w = (Failed (RuntimeError e), w)) /\
  (forall engine voices f, pyttsx3_init = Ok engine -> get_voices engine = Ok voices ->
                           w_fs w !! "output" = Some f -> f <> FDir ->
                           main draws w = (Failed (Exn (OSError "output")), w)).
Proof.
  split; [|split].
  - intros e He. unfold main, VideoGenerator_init. rewrite He. reflexivity.
  - intros engine e He Hv. unfold main, VideoGenerator_init, validate_dependencies.
    rewrite He. cbn [_load_config truthy_path]. rewrite Hv. reflexivity.
  - intros engine voices f He Hv Hf Hnd.
    unfold main. rewrite (init_default w engine voices He Hv).
    unfold bind at 1. unfold makedirs. rewrite Hf.
    destruct f; try reflexivity. contradiction.
Qed.

End Generator.


(** * The theorems at concrete inputs *)

(** The chart animation of the sample series under the sample
    configuration: three frames, one per prefix. *)
Lemma chart_animation_frames_witness :
  exists w' v,
    generate_chart_animation Sample.interp Sample.dpi Sample.paint Sample.config
      Sample.series "out" "bar" Sample.empty_world
    = (Ok (path_join "out" "chart_animation.mp4"), w') /\
    w_fs w' !! path_join "out" "chart_animation.mp4" = Some (FVideo v) /\
    length (vf_frames v) = 3%nat /\
    forall k : nat, (1 <= k <= 3)%nat ->
      exists img,
        vf_frames v !! (k - 1)%nat = Some img /\
        chart_image Sample.interp Sample.dpi Sample.paint Sample.config
          (take k (years Sample.series)) (take k (values Sample.series))
          "bar" (VInt 2, VInt 4) (Z.of_nat k) = Ok img.
Proof.
  apply (chart_animation_frames Sample.interp Sample.dpi Sample.paint Sample.config
           4 2 (VInt 2) (VStr "#ffffff") (inject_Z 2) Sample.series "out" "bar"
           Sample.empty_world 3).
  - reflexivity.
  - reflexivity.
  - lia.
  - reflexivity.
  - right. reflexivity.
  - lia.
  - lia.
  - reflexivity.
  - reflexivity.
  - reflexivity.
Defined.

(** The chart type "pie" under the default configuration. *)
Lemma invalid_chart_type_rejected_witness :
  default_config !! "chart_types" = Some (VList (map VStr ["line"; "bar"; "scatter"])) /\
  ("pie" ∉ ["line"; "bar"; "scatter"] ->
   generate_chart_animation Sample.interp Sample.dpi Sample.paint default_config
     Sample.series "out" "pie" Sample.empty_world
   = (Raise (ValueError ("Invalid chart type. Choose from: "
                         ++ String.concat ", " ["line"; "bar"; "scatter"])),
      Sample.empty_world))
  /\ ("pie" ∈ ["line"; "bar"; "scatter"] -> _validate_chart_type default_config "pie" = Ok tt).
Proof.
  split; [reflexivity|].
  apply (invalid_chart_type_rejected Sample.interp Sample.dpi Sample.paint default_config
           ["line"; "bar"; "scatter"] Sample.series "out" "pie" Sample.empty_world).
  reflexivity.
Defined.

(** The transition on a raster of six pixels at frame 3. *)
Lemma transition_is_identity_witness :
  image_ok Sample.small_image = true /\
  _apply_transition Sample.small_image 3
  = addWeighted Sample.small_image (Qmin 1 (inject_Z 3 / 10)) Sample.small_image
      (1 - Qmin 1 (inject_Z 3 / 10)) 0
  /\ _apply_transition Sample.small_image 3 = Ok Sample.small_image.
Proof.
  split; [reflexivity|].
  apply (transition_is_identity Sample.small_image 3). reflexivity.
Defined.


(** The title of [main] between frames 24 and 71. *)
Lemma title_reveal_rate_witness :
  0 <= 24 <= 71 /\
  Z.of_nat (String.length (visible_title Sample.main_title 24))
    = Z.min (24 / 3) (Z.of_nat (String.length Sample.main_title))
  /\ String.prefix (visible_title Sample.main_title 24)
       (visible_title Sample.main_title 71) = true
  /\ (visible_title Sample.main_title 24 = Sample.main_title
      <-> 3 * Z.of_nat (String.length Sample.main_title) <= 24).
Proof.
  split; [lia|].
  apply (title_reveal_rate Sample.main_title 24 71). lia.
Defined.

(** C8 as stated fails on the title of [main] at 24 frames per second: at
    frame 24, one third of the 72 frames, eight of its 24 characters are
    shown, and the last frame, 71, still lacks one. *)
Lemma title_not_revealed_by_one_third :
  visible_title Sample.main_title 24 = "Economic" /\
  visible_title Sample.main_title 24 <> Sample.main_title /\
  visible_title Sample.main_title 71 <> Sample.main_title.
Proof. split; [reflexivity|]. split; discriminate. Qed.

(** The sample document, which sets every recognized key. *)
Lemma load_config_explicit_roundtrip_witness :
  exists cfg,
    _load_config Sample.json_load (Some "config.json") Sample.config_world
    = (Ok cfg, Sample.config_world) /\
    (forall k, k ∈ recognized_keys -> cfg !! k = dict_get Sample.config_items k) /\
    (forall k, cfg !! k = dict_get Sample.config_items k).
Proof.
  apply (load_config_explicit_roundtrip Sample.json_load Sample.config_world
           "config.json" Sample.config_text Sample.config_items).
  - discriminate.
  - reflexivity.
  - reflexivity.
  - intros k Hk. unfold recognized_keys in Hk.
    repeat (apply elem_of_cons in Hk as [-> | Hk]; [eexists; reflexivity|]).
    apply elem_of_nil in Hk. destruct Hk.
Defined.

(** No path, and a path that names nothing. *)
Lemma load_config_absent_is_default_witness :
  _load_config Sample.json_load None Sample.empty_world
  = (Ok default_config, Sample.empty_world) /\
  _load_config Sample.json_load (Some "missing.json") Sample.config_world
  = (Ok default_config, Sample.config_world).
Proof.
  split.
  - apply (load_config_absent_is_default Sample.json_load Sample.empty_world None).
    left. reflexivity.
  - apply (load_config_absent_is_default Sample.json_load Sample.config_world
             (Some "missing.json")).
    right. exists "missing.json". split; reflexivity.
Defined.





(** * The further properties at concrete inputs *)

(** The example configuration of [main], loaded from a file. *)
Lemma load_config_overlay_witness :
  exists cfg,
    _load_config Demo.json_load (Some "config.json") Demo.config_world
    = (Ok cfg, Demo.config_world) /\
    (forall k v, dict_get Demo.main_config_items k = Some v -> cfg !! k = Some v) /\
    (forall k, dict_get Demo.main_config_items k = None -> cfg !! k = default_config !! k).
Proof.
  apply (load_config_overlay Demo.json_load Demo.config_world "config.json"
           Demo.main_config_text Demo.main_config_items).
  - discriminate.
  - reflexivity.
  - reflexivity.
Defined.

Lemma load_config_binds_recognized_keys_witness :
  Demo.config_world = Demo.config_world /\
  forall cfg k,
    Ok (dict_update default_config Demo.main_config_items) = Ok cfg ->
    k ∈ recognized_keys -> exists v, config_get cfg k = Ok v.
Proof.
  apply (load_config_binds_recognized_keys Demo.json_load Demo.config_world
           Demo.config_world (Some "config.json")
           (Ok (dict_update default_config Demo.main_config_items))).
  reflexivity.
Defined.

(** The voice entry of that configuration has no volume. *)
Lemma load_config_nested_default_lost_witness :
  exists cfg,
    _load_config Demo.json_load (Some "config.json") Demo.config_world
    = (Ok cfg, Demo.config_world) /\
    config_get2 cfg "voice" "volume" = Raise (KeyError "volume").
Proof.
  apply (load_config_nested_default_lost Demo.json_load Demo.config_world "config.json"
           Demo.main_config_text Demo.main_config_items
           [("rate", VInt 160); ("voice_id", VStr "english")] "voice" "volume").
  - discriminate.
  - reflexivity.
  - reflexivity.
  - reflexivity.
  - reflexivity.
Defined.

Lemma partial_voice_entry_breaks_voiceover_witness :
  exists cfg,
    _load_config Demo.json_load (Some "config.json") Demo.config_world
    = (Ok cfg, Demo.config_world) /\
    forall narration output_path engine w1,
      create_voiceover Demo.get_voices Demo.synth cfg narration output_path engine w1
      = (Raise (KeyError "volume"), set_rate (VInt 160) engine, w1).
Proof.
  apply (partial_voice_entry_breaks_voiceover Demo.json_load Demo.get_voices Demo.synth
           Demo.config_world "config.json" Demo.main_config_text Demo.main_config_items
           [("rate", VInt 160); ("voice_id", VStr "english")] (VInt 160)).
  - discriminate.
  - reflexivity.
  - reflexivity.
  - reflexivity.
  - reflexivity.
  - reflexivity.
Defined.

(** The default voice entry with two installed voices: the second one is
    selected, not the configured "english". *)
Lemma create_voiceover_voice_choice_witness :
  create_voiceover Demo.get_voices Demo.synth default_config "Hello" "output"
    Demo.engine Sample.empty_world
  = (Ok (path_join "output" "voiceover.mp3"),
     mkEngine (VInt 150) (VFloat 1) "english-us",
     set_fs (insert (path_join "output" "voiceover.mp3")
                    (FAudio (repeat (1 # 2)%Q 5))) Sample.empty_world)
  /\ (e_voice (mkEngine (VInt 150) (VFloat 1) "english-us") = e_voice Demo.engine
      \/ exists first rest, ["default"; "english-us"] = first :: "english-us" :: rest).
Proof.
  apply (create_voiceover_voice_choice Demo.get_voices Demo.synth default_config
           "Hello" "output" Demo.engine Sample.empty_world
           (VInt 150) (VFloat 1) (VStr "english") ["default"; "english-us"]
           (repeat (1 # 2)%Q 5)).
  - reflexivity.
  - reflexivity.
  - reflexivity.
  - reflexivity.
  - reflexivity.
Defined.

(** The window of the sample series on the axes of a fresh figure. *)
Lemma plot_xlim_contains_window_witness :
  exists fig',
    _plot_data (mkFigure (16, 9) VNone VNone [] None None "" "" "")
      (years Sample.series) (values Sample.series) "bar" = Ok fig' /\
    exists lo hi,
      ax_xlim fig' = Some (lo, hi) /\
      forall xi, xi ∈ years Sample.series -> lo < xi < hi.
Proof.
  eexists. split; [reflexivity|].
  apply (plot_xlim_contains_window (mkFigure (16, 9) VNone VNone [] None None "" "" "")
           _ (years Sample.series) (values Sample.series) "bar").
  reflexivity.
Defined.




(** A frame rate of 29.97 in the configuration. *)
Lemma title_screen_float_fps_witness :
  create_title_screen Sample.glyph Sample.to_rgb
    (<["fps" := VFloat (2997 # 100)]> default_config) "Hello" "desc" "output"
    Sample.empty_world
  = (Raise TypeError,
     set_fs (insert (path_join "output" "title_screen.mp4")
                    (FVideo (mkVideoFile (2997 # 100) (720, 1280) [])))
            Sample.empty_world).
Proof.
  apply (title_screen_float_fps Sample.glyph Sample.to_rgb
           (<["fps" := VFloat (2997 # 100)]> default_config) 1280 720 (2997 # 100)
           "Hello" "desc" "output" Sample.empty_world).
  - left. reflexivity.
  - reflexivity.
Defined.

Lemma chart_animation_empty_series_witness :
  generate_chart_animation Sample.interp Sample.dpi Sample.paint default_config
    (mkChartData [] []) "output" "line" Sample.empty_world
  = (Ok (path_join "output" "chart_animation.mp4"),
     set_fs (insert (path_join "output" "chart_animation.mp4")
                    (FVideo (mkVideoFile (inject_Z 24) (720, 1280) [])))
            Sample.empty_world).
Proof.
  apply (chart_animation_empty_series Sample.interp Sample.dpi Sample.paint
           default_config 1280 720 (VInt 24) (inject_Z 24) (mkChartData [] [])
           "output" "line" Sample.empty_world).
  - reflexivity.
  - reflexivity.
  - left. reflexivity.
  - reflexivity.
  - reflexivity.
Defined.

(** Three years and one value, as a line chart. *)
Lemma chart_animation_short_values_witness :
  exists w' v msg,
    generate_chart_animation Sample.interp Sample.dpi Sample.paint default_config
      (mkChartData [2000; 2001; 2002] [50%Q]) "output" "line" Sample.empty_world
    = (Raise (ValueError msg), w') /\
    w_fs w' !! path_join "output" "chart_animation.mp4" = Some (FVideo v) /\
    length (vf_frames v) = 1%nat /\
    length (w_drawn w') = (0 + 1)%nat.
Proof.
  apply (chart_animation_short_values Sample.interp Sample.dpi Sample.paint
           default_config 1280 720 (VInt 24) (VStr "#ecf0f1") (inject_Z 24)
           (mkChartData [2000; 2001; 2002] [50%Q]) "output" "line" Sample.empty_world).
  - cbn. lia.
  - left. reflexivity.
  - reflexivity.
  - left. reflexivity.
  - lia.
  - lia.
  - reflexivity.
  - reflexivity.
  - reflexivity.
Defined.

Lemma chart_segment_frames_match_writer_witness :
  exists w' v,
    generate_chart_animation Sample.interp Sample.dpi Sample.paint Sample.config
      Sample.series "out" "bar" Sample.empty_world
    = (Ok (path_join "out" "chart_animation.mp4"), w') /\
    w_fs w' !! path_join "out" "chart_animation.mp4" = Some (FVideo v) /\
    Forall (fun img => frame_size img = vf_size v) (vf_frames v).
Proof.
  apply (chart_segment_frames_match_writer Sample.interp Sample.dpi Sample.paint
           Sample.config 4 2 (VInt 2) (VStr "#ffffff") (inject_Z 2) Sample.series
           "out" "bar" Sample.empty_world).
  - reflexivity.
  - right. reflexivity.
  - lia.
  - lia.
  - reflexivity.
  - reflexivity.
  - reflexivity.
  - reflexivity.
Defined.


(** A list of chart kinds with a number in it. *)
Lemma invalid_chart_type_with_non_string_kind_witness :
  generate_chart_animation Sample.interp Sample.dpi Sample.paint
    (<["chart_types" := VList [VStr "line"; VInt 5]]> default_config)
    Sample.series "output" "pie" Sample.empty_world
  = (Raise TypeError, Sample.empty_world).
Proof.
  apply (invalid_chart_type_with_non_string_kind Sample.interp Sample.dpi Sample.paint
           (<["chart_types" := VList [VStr "line"; VInt 5]]> default_config)
           [VStr "line"; VInt 5] (VInt 5) Sample.series "output" "pie"
           Sample.empty_world).
  - reflexivity.
  - apply elem_of_cons. right. apply elem_of_cons. left. reflexivity.
  - intros s. discriminate.
  - intros H. apply elem_of_cons in H as [H | H]; [discriminate H|].
    apply elem_of_cons in H as [H | H]; [discriminate H|].
    apply elem_of_nil in H. exact H.
Defined.

Lemma combine_media_missing_music_ignored_witness :
  combine_media "out/title_screen.mp4" "out/chart_animation.mp4" "out/voiceover.mp3"
    "out" (Some "no_such_music.mp3") Sample.media_world
  = combine_media "out/title_screen.mp4" "out/chart_animation.mp4" "out/voiceover.mp3"
      "out" None Sample.media_world.
Proof.
  apply (combine_media_missing_music_ignored "out/title_screen.mp4"
           "out/chart_animation.mp4" "out/voiceover.mp3" "out" "no_such_music.mp3"
           Sample.media_world).
  reflexivity.
Defined.


